(** * ToDoListManager: a shallow embedding of [todo_list.py]

    The development follows the Python module class by class.

    - Python values that travel through the JSON file are the type [json]
      (None, bool, int, str, list, dict with string keys).  Numbers with a
      fractional part are left out of the value universe: task fields and
      file contents range over float-free documents, with integers that
      the interpreter converts to and from text (below its digit limit).
      Text is a byte string.  [str.lower], [str.upper] and [int(str)] are those of the
      interpreter on ASCII text ([is_ascii]); on other text they depend on
      Unicode tables that are not part of this development, and every
      statement whose content depends on them carries the restriction to
      ASCII as a hypothesis.
    - Objects with identity live in a heap: [Task] objects and Python list
      objects are allocated in the [world] and named by their address, so
      that the list returned by [list_tasks] and the list owned by the
      manager are different objects holding the same task objects.
    - The manager object itself ([self]) is threaded as a value next to
      the world.
    - The backing file holds text written by [json.dump] and read by
      [json.load]; both belong to the Python library.  A file's content is
      represented by what [json.load] makes of it: [Malformed] text raises
      [JSONDecodeError], [Document v] parses to the value [v].  A file on
      which [json.load] fails in another way (bytes that are not text, an
      integer literal beyond the interpreter's digit limit, nesting beyond
      the recursion limit) and a document with floats have no
      representation: statements about files speak of the represented ones.
    - [datetime.now().isoformat()] reads a clock owned by the world.
    - Exceptions are values of [exn]; a computation returns [Ok a] or
      [Raise e] together with the state reached. *)

From Stdlib Require Import ZArith String Ascii List Lia DecimalString.
From stdpp Require Import base option list gmap strings.

Set Warnings "-register-all".

Local Open Scope string_scope.
Local Open Scope Z_scope.

(* ------------------------------------------------------------------ *)
(** ** Python values *)

Inductive json : Type :=
| JNull
| JBool (b : bool)
| JInt (z : Z)
| JStr (s : string)
| JList (l : list json)
| JDict (d : list (string * json)).

Inductive exn : Type :=
| JSONDecodeError
| KeyError
| AttributeError
| TypeError.

Inductive result (A : Type) : Type :=
| Ok (a : A)
| Raise (e : exn).

Arguments Ok {A} a.
Arguments Raise {A} e.

(** The argument of [mark_task_completed] carries no annotation: it can be
    any value, including a float (written here as [m * 2^e]). *)
Inductive pyobj : Type :=
| OJson (v : json)
| OFloat (m e : Z).

(** [d[k]] and [d.get(k, default)] on a dict: keys of a parsed object are
    distinct, the association list is searched from the front. *)
Fixpoint dict_lookup (k : string) (d : list (string * json)) : option json :=
  match d with
  | [] => None
  | (k', v) :: d' => if String.eqb k' k then Some v else dict_lookup k d'
  end.

(** [data[k]] for a string key [k]. *)
Definition py_getitem (data : json) (k : string) : result json :=
  match data with
  | JDict d => match dict_lookup k d with
               | Some v => Ok v
               | None => Raise KeyError
               end
  | _ => Raise TypeError
  end.

(** [data.get(k, dflt)]: only dicts have a [get] attribute. *)
Definition py_get (data : json) (k : string) (dflt : json) : result json :=
  match data with
  | JDict d => Ok (default dflt (dict_lookup k d))
  | _ => Raise AttributeError
  end.

Fixpoint chars (s : string) : list json :=
  match s with
  | EmptyString => []
  | String c s' => JStr (String c EmptyString) :: chars s'
  end.

(** [for x in v]: lists yield their elements, dicts their keys, strings
    their characters; the other values are not iterable. *)
Definition py_iter (v : json) : result (list json) :=
  match v with
  | JList l => Ok l
  | JDict d => Ok (map (fun p => JStr (fst p)) d)
  | JStr s => Ok (chars s)
  | _ => Raise TypeError
  end.

(** [v == n] for an int [n]; [True == 1] and [False == 0]. *)
Definition py_eq_int (v : json) (n : Z) : bool :=
  match v with
  | JInt z => Z.eqb z n
  | JBool b => Z.eqb (if b then 1 else 0) n
  | _ => false
  end.

(** [v == s] for a string [s]. *)
Definition py_eq_str (v : json) (s : string) : bool :=
  match v with
  | JStr s' => String.eqb s' s
  | _ => false
  end.

(** [v += 1] *)
Definition py_add_one (v : json) : result json :=
  match v with
  | JInt z => Ok (JInt (z + 1))
  | JBool b => Ok (JInt ((if b then 1 else 0) + 1))
  | _ => Raise TypeError
  end.

(** Truth value of an [Optional[str]] argument: [None] and [""] are false. *)
Definition truthy (s : option string) : bool :=
  match s with
  | None => false
  | Some EmptyString => false
  | Some _ => true
  end.

(** *** ASCII text *)

Fixpoint is_ascii (s : string) : bool :=
  match s with
  | EmptyString => true
  | String c s' => (Nat.ltb (nat_of_ascii c) 128 && is_ascii s')%bool
  end.

(** *** [str.lower]

    On ASCII text [str.lower] maps [A-Z] to [a-z] and keeps every other
    character. *)

Definition lower_ascii (c : ascii) : ascii :=
  let n := nat_of_ascii c in
  if (Nat.leb 65 n && Nat.leb n 90)%bool then ascii_of_nat (n + 32) else c.

Fixpoint lower (s : string) : string :=
  match s with
  | EmptyString => EmptyString
  | String c s' => String (lower_ascii c) (lower s')
  end.

(** *** [int(s)] for an ASCII string [s]

    Surrounding whitespace (tab, line feed, vertical tab, form feed,
    carriage return, space) is dropped, one sign is allowed, and the digits
    may be grouped by single underscores.  A numeral with more digits than
    the interpreter's limit is refused; the limit is the default one, which
    the program does not change.  [None] stands for [ValueError]. *)

Definition is_space (c : ascii) : bool :=
  let n := nat_of_ascii c in
  ((Nat.leb 9 n && Nat.leb n 13) || Nat.eqb n 32)%bool.

Definition digit_of (c : ascii) : option Z :=
  let n := nat_of_ascii c in
  if (Nat.leb 48 n && Nat.leb n 57)%bool then Some (Z.of_nat (n - 48)) else None.

Fixpoint lstrip (s : string) : string :=
  match s with
  | EmptyString => EmptyString
  | String c s' => if is_space c then lstrip s' else s
  end.

Fixpoint rstrip (s : string) : string :=
  match s with
  | EmptyString => EmptyString
  | String c s' =>
      match rstrip s' with
      | EmptyString => if is_space c then EmptyString else String c EmptyString
      | r => String c r
      end
  end.

Fixpoint digits_value (after_digit : bool) (acc : Z) (s : string) : option Z :=
  match s with
  | EmptyString => if after_digit then Some acc else None
  | String c s' =>
      match digit_of c with
      | Some d => digits_value true (10 * acc + d) s'
      | None =>
          if (Ascii.eqb c "_" && after_digit)%bool
          then digits_value false acc s'
          else None
      end
  end.

Fixpoint count_digits (s : string) : Z :=
  match s with
  | EmptyString => 0
  | String c s' => (match digit_of c with Some _ => 1 | None => 0 end) + count_digits s'
  end.

Definition int_max_str_digits : Z := 4300.

Definition py_int (s : string) : option Z :=
  let body := rstrip (lstrip s) in
  if Z.ltb int_max_str_digits (count_digits body) then None
  else
    match body with
    | String "-" ds => Z.opp <$> digits_value false 0 ds
    | String "+" ds => digits_value false 0 ds
    | ds => digits_value false 0 ds
    end.

(** *** [str(v)] and [repr(v)], as used by the f-string of [__str__] *)

Definition str_of_Z (z : Z) : string := NilZero.string_of_int (Z.to_int z).

Fixpoint has_char (c : ascii) (s : string) : bool :=
  match s with
  | EmptyString => false
  | String c' s' => (Ascii.eqb c c' || has_char c s')%bool
  end.

(** [repr] of a string escapes the quote, the backslash and the ASCII
    control characters; bytes from 128 on are kept, as for printable
    characters outside ASCII. *)
Definition hex_digit (n : nat) : ascii :=
  if Nat.ltb n 10 then ascii_of_nat (48 + n) else ascii_of_nat (87 + n).

Fixpoint repr_chars (q : ascii) (s : string) : string :=
  match s with
  | EmptyString => EmptyString
  | String c s' =>
      let n := nat_of_ascii c in
      let rest := repr_chars q s' in
      if Ascii.eqb c "\" then String "\" (String "\" rest)
      else if Ascii.eqb c q then String "\" (String c rest)
      else if Nat.eqb n 10 then String "\" (String "n" rest)
      else if Nat.eqb n 13 then String "\" (String "r" rest)
      else if Nat.eqb n 9 then String "\" (String "t" rest)
      else if (Nat.ltb n 32 || Nat.eqb n 127)%bool
           then String "\" (String "x" (String (hex_digit (Nat.div n 16))
                                          (String (hex_digit (Nat.modulo n 16)) rest)))
      else String c rest
  end.

Definition squote : ascii := ascii_of_nat 39.
Definition dquote : ascii := ascii_of_nat 34.

Definition repr_str (s : string) : string :=
  let q := if (has_char squote s && negb (has_char dquote s))%bool then dquote else squote in
  String q (repr_chars q s +:+ String q EmptyString).

Fixpoint join (sep : string) (l : list string) : string :=
  match l with
  | [] => EmptyString
  | [x] => x
  | x :: l' => x +:+ sep +:+ join sep l'
  end.

Fixpoint py_repr (v : json) : string :=
  match v with
  | JNull => "None"
  | JBool true => "True"
  | JBool false => "False"
  | JInt z => str_of_Z z
  | JStr s => repr_str s
  | JList l => "[" +:+ join ", " (List.map py_repr l) +:+ "]"
  | JDict d =>
      "{" +:+ join ", " (List.map (fun p => repr_str (fst p) +:+ ": " +:+ py_repr (snd p)) d) +:+ "}"
  end.

Definition py_str (v : json) : string :=
  match v with
  | JStr s => s
  | _ => py_repr v
  end.

(* ------------------------------------------------------------------ *)
(** ** The state-and-exception monad *)

Definition ST (S A : Type) : Type := S -> result A * S.

Definition ret {S A} (a : A) : ST S A := fun s => (Ok a, s).

Definition raise {S A} (e : exn) : ST S A := fun s => (Raise e, s).

Definition bind {S A B} (c : ST S A) (k : A -> ST S B) : ST S B :=
  fun s => match c s with
           | (Ok a, s') => k a s'
           | (Raise e, s') => (Raise e, s')
           end.

Definition of_result {S A} (r : result A) : ST S A := fun s => (r, s).

Declare Scope st_scope.
Delimit Scope st_scope with st.
Notation "x <- c ;; k" := (bind c (fun x => k))
  (at level 100, c at next level, right associativity) : st_scope.
Notation "c ;;; k" := (bind c (fun _ => k))
  (at level 100, right associativity) : st_scope.
Local Open Scope st_scope.

Fixpoint mapST {S A B} (f : A -> ST S B) (l : list A) : ST S (list B) :=
  match l with
  | [] => ret []
  | x :: l' => y <- f x ;; ys <- mapST f l' ;; ret (y :: ys)
  end.

Definition try_except {S A} (c : ST S A) (h : exn -> ST S A) : ST S A :=
  fun s => match c s with
           | (Ok a, s') => (Ok a, s')
           | (Raise e, s') => h e s'
           end.

(* ------------------------------------------------------------------ *)
(** ** The heap, the file system and the clock *)

(** Addresses of heap objects. *)
Abbreviation addr := nat (only parsing).

Module Task.
Record t : Type := mk {
  id : json;
  title : json;
  description : json;
  priority : json;
  due_date : json;
  status : json;
  created_at : json;
  completed_at : json
}.

Definition set_id (v : json) (x : t) : t :=
  mk v (title x) (description x) (priority x) (due_date x) (status x)
     (created_at x) (completed_at x).
Definition set_status (v : json) (x : t) : t :=
  mk (id x) (title x) (description x) (priority x) (due_date x) v
     (created_at x) (completed_at x).
Definition set_created_at (v : json) (x : t) : t :=
  mk (id x) (title x) (description x) (priority x) (due_date x) (status x)
     v (completed_at x).
Definition set_completed_at (v : json) (x : t) : t :=
  mk (id x) (title x) (description x) (priority x) (due_date x) (status x)
     (created_at x) v.

(** What an address that was never allocated reads as; no address
    handed out by the program is in that case. *)
Definition unallocated : t := mk JNull JNull JNull JNull JNull JNull JNull JNull.
End Task.

(** What [json.load] makes of a file. *)
Inductive content : Type :=
| Malformed
| Document (v : json).

Record world : Type := World {
  task_heap : list Task.t;          (* Task objects, by address *)
  list_heap : list (list addr);     (* list objects, by address *)
  files : gmap string content;      (* the files that exist *)
  clock : nat -> string;            (* the n-th reading of the clock *)
  ticks : nat                       (* readings made so far *)
}.

Definition with_task_heap (h : list Task.t) (w : world) : world :=
  World h (list_heap w) (files w) (clock w) (ticks w).
Definition with_list_heap (h : list (list addr)) (w : world) : world :=
  World (task_heap w) h (files w) (clock w) (ticks w).
Definition with_files (f : gmap string content) (w : world) : world :=
  World (task_heap w) (list_heap w) f (clock w) (ticks w).
Definition with_ticks (n : nat) (w : world) : world :=
  World (task_heap w) (list_heap w) (files w) (clock w) n.

Definition task_at (w : world) (a : addr) : Task.t :=
  default Task.unallocated (task_heap w !! a).

Definition list_at (w : world) (a : addr) : list addr :=
  default [] (list_heap w !! a).

(** [datetime.now().isoformat()] *)
Definition now_isoformat : ST world string :=
  fun w => (Ok (clock w (ticks w)), with_ticks (S (ticks w)) w).

Definition alloc_task (x : Task.t) : ST world addr :=
  fun w => (Ok (length (task_heap w)), with_task_heap (task_heap w ++ [x]) w).

Definition read_task (a : addr) : ST world Task.t :=
  fun w => (Ok (task_at w a), w).

Definition write_task (a : addr) (f : Task.t -> Task.t) : ST world unit :=
  fun w => (Ok tt, with_task_heap (alter f a (task_heap w)) w).

Definition alloc_list (l : list addr) : ST world addr :=
  fun w => (Ok (length (list_heap w)), with_list_heap (list_heap w ++ [l]) w).

Definition read_list (a : addr) : ST world (list addr) :=
  fun w => (Ok (list_at w a), w).

(** [l.append(x)] and [l.clear()] change the list object in place. *)
Definition list_append (a : addr) (x : addr) : ST world unit :=
  fun w => (Ok tt, with_list_heap (alter (fun l : list addr => (l ++ [x])%list) a (list_heap w)) w).

Definition list_clear (a : addr) : ST world unit :=
  fun w => (Ok tt, with_list_heap (alter (fun _ => []) a (list_heap w)) w).

(** [os.path.exists(p)] together with the content found there. *)
Definition read_file (p : string) : ST world (option content) :=
  fun w => (Ok (files w !! p), w).

(** [open(p, 'w')] followed by [json.dump(v, f)]. *)
Definition json_dump (p : string) (v : json) : ST world unit :=
  fun w => (Ok tt, with_files (<[p := Document v]> (files w)) w).

Definition json_load (c : content) : result json :=
  match c with
  | Malformed => Raise JSONDecodeError
  | Document v => Ok v
  end.

(* ------------------------------------------------------------------ *)
(** ** class Task *)

(** [Task.__init__] *)
Definition Task_init (title description priority due_date : json) : ST world addr :=
  now <- now_isoformat ;;
  alloc_task (Task.mk JNull title description priority due_date
                      (JStr "pending") (JStr now) JNull).

(** [Task.mark_completed] *)
Definition Task_mark_completed (self : addr) : ST world unit :=
  write_task self (Task.set_status (JStr "completed")) ;;;
  now <- now_isoformat ;;
  write_task self (Task.set_completed_at (JStr now)).

Definition to_dict_of (x : Task.t) : json :=
  JDict [ ("id", Task.id x);
          ("title", Task.title x);
          ("description", Task.description x);
          ("priority", Task.priority x);
          ("due_date", Task.due_date x);
          ("status", Task.status x);
          ("created_at", Task.created_at x);
          ("completed_at", Task.completed_at x) ].

(** [Task.to_dict] *)
Definition Task_to_dict (self : addr) : ST world json :=
  x <- read_task self ;;
  ret (to_dict_of x).

(** [Task.from_dict] *)
Definition Task_from_dict (data : json) : ST world addr :=
  title <- of_result (py_getitem data "title") ;;
  description <- of_result (py_get data "description" (JStr "")) ;;
  priority <- of_result (py_get data "priority" (JStr "medium")) ;;
  due_date <- of_result (py_get data "due_date" JNull) ;;
  task <- Task_init title description priority due_date ;;
  id <- of_result (py_get data "id" JNull) ;;
  write_task task (Task.set_id id) ;;;
  status <- of_result (py_get data "status" (JStr "pending")) ;;
  write_task task (Task.set_status status) ;;;
  now <- now_isoformat ;;
  created_at <- of_result (py_get data "created_at" (JStr now)) ;;
  write_task task (Task.set_created_at created_at) ;;;
  completed_at <- of_result (py_get data "completed_at" JNull) ;;
  write_task task (Task.set_completed_at completed_at) ;;;
  ret task.

(** The dict literal of [__str__], indexed by the priority: a list or a
    dict is not hashable, any other unknown key is a [KeyError]. *)
Definition priority_symbol_of (p : json) : result string :=
  match p with
  | JStr s =>
      if String.eqb s "low" then Ok "●"
      else if String.eqb s "medium" then Ok "●●"
      else if String.eqb s "high" then Ok "●●●"
      else Raise KeyError
  | JList _ | JDict _ => Raise TypeError
  | _ => Raise KeyError
  end.

Definition str_of (x : Task.t) : result string :=
  let status_symbol := if py_eq_str (Task.status x) "completed" then "✓" else "○" in
  match priority_symbol_of (Task.priority x) with
  | Ok priority_symbol =>
      Ok (status_symbol +:+ " [" +:+ py_str (Task.id x) +:+ "] "
                        +:+ py_str (Task.title x) +:+ " " +:+ priority_symbol)
  | Raise e => Raise e
  end.

(** [Task.__str__] *)
Definition Task_str (self : addr) : ST world string :=
  x <- read_task self ;;
  of_result (str_of x).

(* ------------------------------------------------------------------ *)
(** ** class ToDoListManager *)

Record ToDoListManager : Type := Manager {
  data_file : string;
  tasks : addr;        (* the list object held in [self.tasks] *)
  next_id : json
}.

(** Methods run on [self] and the world. *)
Definition M (A : Type) : Type := ST (ToDoListManager * world) A.

Definition liftW {A} (c : ST world A) : M A :=
  fun s => match c (snd s) with
           | (r, w') => (r, (fst s, w'))
           end.

Definition get_self : M ToDoListManager := fun s => (Ok (fst s), s).

Definition set_tasks (a : addr) : M unit :=
  fun s => (Ok tt, (Manager (data_file (fst s)) a (next_id (fst s)), snd s)).

Definition set_next_id (v : json) : M unit :=
  fun s => (Ok tt, (Manager (data_file (fst s)) (tasks (fst s)) v, snd s)).

Definition len {A} (l : list A) : Z := Z.of_nat (length l).

(** [save_tasks] *)
Definition save_tasks : M unit :=
  self <- get_self ;;
  l <- liftW (read_list (tasks self)) ;;
  ds <- liftW (mapST Task_to_dict l) ;;
  let data := JDict [ ("next_id", next_id self); ("tasks", JList ds) ] in
  liftW (json_dump (data_file self) data).

(** [load_tasks] *)
Definition load_tasks : M unit :=
  self <- get_self ;;
  f <- liftW (read_file (data_file self)) ;;
  match f with
  | None => ret tt
  | Some c =>
      try_except
        (data <- of_result (json_load c) ;;
         n <- of_result (py_get data "next_id" (JInt 1)) ;;
         set_next_id n ;;;
         ts <- of_result (py_get data "tasks" (JList [])) ;;
         items <- of_result (py_iter ts) ;;
         l <- liftW (mapST Task_from_dict items) ;;
         a <- liftW (alloc_list l) ;;
         set_tasks a)
        (fun e =>
           match e with
           | JSONDecodeError | KeyError =>
               a <- liftW (alloc_list []) ;;
               set_tasks a ;;;
               set_next_id (JInt 1)
           | _ => raise e
           end)
  end.

(** [ToDoListManager.__init__]: the new manager, unless [load_tasks]
    raises. *)
Definition ToDoListManager_init (data_file : string) : ST world ToDoListManager :=
  a <- alloc_list [] ;;
  fun w => match load_tasks (Manager data_file a (JInt 1), w) with
           | (Ok _, (self, w')) => (Ok self, w')
           | (Raise e, (_, w')) => (Raise e, w')
           end.

Definition json_of_opt (s : option string) : json :=
  match s with
  | Some x => JStr x
  | None => JNull
  end.

(** [add_task] *)
Definition add_task (title description priority : string) (due_date : option string)
  : M addr :=
  task <- liftW (Task_init (JStr title) (JStr description) (JStr priority)
                           (json_of_opt due_date)) ;;
  self <- get_self ;;
  liftW (write_task task (Task.set_id (next_id self))) ;;;
  n <- of_result (py_add_one (next_id self)) ;;
  set_next_id n ;;;
  liftW (list_append (tasks self) task) ;;;
  save_tasks ;;;
  ret task.

(** The comprehension [[task for task in l if task.status == s]]. *)
Definition with_status (w : world) (s : string) (l : list addr) : list addr :=
  List.filter (fun a => py_eq_str (Task.status (task_at w a)) s) l.

(** [list_tasks]: the address of a new list object. *)
Definition list_tasks (status_filter : option string) : M addr :=
  self <- get_self ;;
  l <- liftW (read_list (tasks self)) ;;
  match status_filter with
  | Some s =>
      if truthy (Some s)
      then liftW (fun w => alloc_list (with_status w s l) w)
      else liftW (alloc_list l)
  | None => liftW (alloc_list l)
  end.

(** [get_task_by_id] *)
Definition get_task_by_id (task_id : Z) : M (option addr) :=
  self <- get_self ;;
  l <- liftW (read_list (tasks self)) ;;
  liftW (fun w => (Ok (List.find (fun a => py_eq_int (Task.id (task_at w a)) task_id) l), w)).

Fixpoint find_title (w : world) (title : string) (l : list addr) : result (option addr) :=
  match l with
  | [] => Ok None
  | a :: l' =>
      match Task.title (task_at w a) with
      | JStr s =>
          if String.eqb (lower s) (lower title) then Ok (Some a)
          else find_title w title l'
      | _ => Raise AttributeError
      end
  end.

(** [get_task_by_title] *)
Definition get_task_by_title (title : string) : M (option addr) :=
  self <- get_self ;;
  l <- liftW (read_list (tasks self)) ;;
  liftW (fun w => (find_title w title l, w)).

(** [isinstance(x, int)], with the integer when it holds ([bool] is a
    subclass of [int]), and [isinstance(x, str)], with the text. *)
Definition isinstance_int (x : pyobj) : option Z :=
  match x with
  | OJson (JInt n) => Some n
  | OJson (JBool b) => Some (if b then 1 else 0)
  | _ => None
  end.

Definition isinstance_str (x : pyobj) : option string :=
  match x with
  | OJson (JStr s) => Some s
  | _ => None
  end.

(** [mark_task_completed] *)
Definition mark_task_completed (identifier : pyobj) : M bool :=
  task <- match isinstance_int identifier with
          | Some task_id => get_task_by_id task_id
          | None =>
              match isinstance_str identifier with
              | Some s =>
                  match py_int s with
                  | Some task_id => get_task_by_id task_id
                  | None => get_task_by_title s
                  end
              | None => ret None
              end
          end ;;
  match task with
  | Some a =>
      liftW (Task_mark_completed a) ;;;
      save_tasks ;;;
      ret true
  | None => ret false
  end.

(** [clear_all_tasks] *)
Definition clear_all_tasks : M unit :=
  self <- get_self ;;
  liftW (list_clear (tasks self)) ;;;
  set_next_id (JInt 1) ;;;
  save_tasks.

(** [is_empty] *)
Definition is_empty : M bool :=
  self <- get_self ;;
  l <- liftW (read_list (tasks self)) ;;
  ret (Z.eqb (len l) 0).

(** [count_tasks]: the list built by the comprehension is measured and
    dropped, it is not given an address. *)
Definition count_tasks (status : option string) : M Z :=
  self <- get_self ;;
  l <- liftW (read_list (tasks self)) ;;
  match status with
  | Some s =>
      if truthy (Some s)
      then liftW (fun w => (Ok (len (with_status w s l)), w))
      else ret (len l)
  | None => ret (len l)
  end.

(* ------------------------------------------------------------------ *)
(** ** Observing a store *)

Definition state : Type := (ToDoListManager * world)%type.

(** The tasks held by the manager, in insertion order. *)
Definition held (self : ToDoListManager) (w : world) : list Task.t :=
  List.map (task_at w) (list_at w (tasks self)).

(** The mapping [save_tasks] hands to [json.dump]. *)
Definition snapshot (self : ToDoListManager) (w : world) : json :=
  JDict [ ("next_id", next_id self);
          ("tasks", JList (List.map to_dict_of (held self w))) ].

(** A file that parses to a saved store. *)
Definition document (n : json) (ts : list Task.t) : content :=
  Document (JDict [ ("next_id", n); ("tasks", JList (List.map to_dict_of ts)) ]).

(** [completed_at] is set exactly when the status is [completed]. *)
Definition task_inv (x : Task.t) : Prop :=
  Task.completed_at x <> JNull <-> Task.status x = JStr "completed".

(** The ids [1, 2, ..., n]. *)
Definition numbered (n : nat) : list json :=
  List.map (fun i => JInt (Z.of_nat i)) (seq 1 n).

(** The world after [Task.mark_completed] ran on the task at [a]. *)
Definition mark_effect (w : world) (a : addr) : world :=
  World (alter (fun x => Task.set_completed_at (JStr (clock w (ticks w)))
                           (Task.set_status (JStr "completed") x))
               a (task_heap w))
        (list_heap w) (files w) (clock w) (S (ticks w)).

(** The state after [save_tasks]. *)
Definition saved (s : state) : state :=
  (fst s,
   with_files (<[data_file (fst s) := document (next_id (fst s)) (held (fst s) (snd s))]>
                 (files (snd s)))
              (snd s)).

(** What [mark_task_completed] does once the lookup gave [r]. *)
Definition outcome (r : option addr) (s : state) : result bool * state :=
  match r with
  | Some a => (Ok true, saved (fst s, mark_effect (snd s) a))
  | None => (Ok false, s)
  end.

(** The lookup that [mark_task_completed] starts with. *)
Definition resolve (identifier : pyobj) : M (option addr) :=
  match isinstance_int identifier with
  | Some task_id => get_task_by_id task_id
  | None =>
      match isinstance_str identifier with
      | Some s =>
          match py_int s with
          | Some task_id => get_task_by_id task_id
          | None => get_task_by_title s
          end
      | None => ret None
      end
  end.





(** Every held title that is text is ASCII text. *)
Definition titles_ascii (self : ToDoListManager) (w : world) : Prop :=
  forall a t, a ∈ list_at w (tasks self) ->
    Task.title (task_at w a) = JStr t -> is_ascii t = true.



Fixpoint glyphs (n : nat) : string :=
  match n with
  | O => ""
  | S n' => "●" +:+ glyphs n'
  end.

(* ------------------------------------------------------------------ *)
(** ** Runs of store operations *)

Inductive op : Type :=
| OpAdd (title description priority : string) (due_date : option string)
| OpMark (identifier : pyobj)
| OpClear
| OpSave
| OpList (status_filter : option string)
| OpTaskMark (task : addr)   (* [task.mark_completed()] by a holder of the task *)
| OpReopen.                  (* a new manager constructed on the same file *)

(** One operation; an exception leaves the state it was raised in, and a
    failed construction leaves the old manager in place. *)
Definition step (o : op) (s : state) : state :=
  match o with
  | OpAdd title description priority due_date =>
      snd (add_task title description priority due_date s)
  | OpMark identifier => snd (mark_task_completed identifier s)
  | OpClear => snd (clear_all_tasks s)
  | OpSave => snd (save_tasks s)
  | OpList status_filter => snd (list_tasks status_filter s)
  | OpTaskMark task => (fst s, snd (Task_mark_completed task (snd s)))
  | OpReopen =>
      match ToDoListManager_init (data_file (fst s)) (snd s) with
      | (Ok self, w) => (self, w)
      | (Raise _, w) => (fst s, w)
      end
  end.

Definition run (ops : list op) (s : state) : state :=
  fold_left (fun s o => step o s) ops s.

(** What holds of a store that was constructed without a backing file and
    then driven by operations: the addresses it holds are allocated, the
    held tasks are numbered from 1, and every task object satisfies [Q]. *)
Definition mem_ok (Q : Task.t -> Prop) (p : string) (s : state) : Prop :=
  let self := fst s in
  let w := snd s in
  data_file self = p /\
  (tasks self < length (list_heap w))%nat /\
  Forall (fun a => (a < length (task_heap w))%nat) (list_at w (tasks self)) /\
  List.map Task.id (held self w) = numbered (length (held self w)) /\
  next_id self = JInt (len (held self w) + 1) /\
  Forall Q (task_heap w).

(** The file, once written, is a saved store with the same properties. *)
Definition file_ok (Q : Task.t -> Prop) (p : string) (w : world) : Prop :=
  forall c, files w !! p = Some c ->
    exists ts, c = document (JInt (len ts + 1)) ts /\
               List.map Task.id ts = numbered (length ts) /\
               Forall Q ts.

Definition store_ok (Q : Task.t -> Prop) (p : string) (s : state) : Prop :=
  mem_ok Q p s /\ file_ok Q p (snd s).

(* ------------------------------------------------------------------ *)
(** ** Concrete stores used in the examples *)

Definition clock0 (n : nat) : string := "2024-05-01T09:00:0" +:+ str_of_Z (Z.of_nat n).

(** Nothing allocated, no file. *)
Definition w_empty : world := World [] [] ∅ clock0 0%nat.

(** A manager constructed on a missing file. *)
Definition s_fresh : state :=
  (Manager "todo_list.json" 0%nat (JInt 1), World [] [[]] ∅ clock0 0%nat).

(** The world in which the backing file holds [c]. *)
Definition w_file (c : content) : world :=
  World [] [] {[ "todo_list.json" := c ]} clock0 0%nat.

(** One pending task, "Buy groceries". *)
Definition s_one : state := step (OpAdd "Buy groceries" "" "medium" None) s_fresh.


(* ------------------------------------------------------------------ *)
(** ** Further notions used to state properties *)

(** [str.upper], on ASCII. *)
Definition upper_ascii (c : ascii) : ascii :=
  let n := nat_of_ascii c in
  if (Nat.leb 97 n && Nat.leb n 122)%bool then ascii_of_nat (n - 32) else c.

Fixpoint upper (s : string) : string :=
  match s with
  | EmptyString => EmptyString
  | String c s' => String (upper_ascii c) (upper s')
  end.

(** An entry of the [tasks] list that [Task.from_dict] accepts: a mapping
    with a [title]. *)
Definition is_task_mapping (v : json) : bool :=
  match v with
  | JDict d => match dict_lookup "title" d with
               | Some _ => true
               | None => false
               end
  | _ => false
  end.

(** The first entry that [Task.from_dict] does not accept. *)
Definition first_bad_entry (items : list json) : option json :=
  List.find (fun v => negb (is_task_mapping v)) items.

(** The status is one of the two the program writes. *)
Definition status_known (x : Task.t) : Prop :=
  Task.status x = JStr "pending" \/ Task.status x = JStr "completed".

(* ------------------------------------------------------------------ *)
(** ** cli.py

    The console is the list of lines printed so far, each with its colour.
    [main] is modelled for the sub-commands add, list, complete and clear,
    on the arguments as [argparse] delivers them (the priority and the
    status filter are restricted by [choices]).  The line printed by the
    exception handler is kept as the exception itself; its wording is the
    interpreter's. *)

Inductive color : Type :=
| WHITE | YELLOW | CYAN | GREEN | RED | LIGHTBLACK_EX.

Inductive printed : Type :=
| Colored (text : string) (c : color)
| ErrorLine (e : exn).          (* [f"Error: {str(e)}"], in red *)

Inductive priority_choice : Type := PLow | PMedium | PHigh.

Definition priority_text (p : priority_choice) : string :=
  match p with
  | PLow => "low"
  | PMedium => "medium"
  | PHigh => "high"
  end.

Inductive status_choice : Type := SPending | SCompleted.

Definition status_text (s : status_choice) : string :=
  match s with
  | SPending => "pending"
  | SCompleted => "completed"
  end.

(** The parsed command line. *)
Inductive command : Type :=
| CmdAdd (title description : string) (priority : priority_choice) (due_date : option string)
| CmdList (status : option status_choice)
| CmdComplete (identifier : string)
| CmdClear.

(** How a run of [main] ends: it returns, it calls [sys.exit], or an
    exception leaves it. *)
Inductive termination : Type :=
| Returned
| SysExit (code : Z)
| Uncaught (e : exn).

(** Computations of [main]: the console next to the manager and the world. *)
Definition B (A : Type) : Type := ST (list printed * state) A.

Definition liftS {A} (c : M A) : B A :=
  fun s => match c (snd s) with
           | (r, s') => (r, (fst s, s'))
           end.

(** Truth value of a task field. *)
Definition py_bool (v : json) : bool :=
  match v with
  | JNull => false
  | JBool b => b
  | JInt z => negb (Z.eqb z 0)
  | JStr EmptyString => false
  | JStr _ => true
  | JList [] => false
  | JList _ => true
  | JDict [] => false
  | JDict _ => true
  end.

(** [print_colored] *)
Definition print_colored (text : string) (c : color) : B unit :=
  fun s => (Ok tt, ((fst s ++ [Colored text c])%list, snd s)).

Definition newline : string := String (ascii_of_nat 10) EmptyString.

(** The body of the loop of [print_tasks]. *)
Definition print_task (task : addr) : B unit :=
  x <- liftS (liftW (read_task task)) ;;
  let c := if py_eq_str (Task.status x) "completed" then GREEN else WHITE in
  line <- liftS (liftW (Task_str task)) ;;
  print_colored ("  " +:+ line) c ;;;
  (if py_bool (Task.description x)
   then print_colored ("    Description: " +:+ py_str (Task.description x)) LIGHTBLACK_EX
   else ret tt) ;;;
  (if py_bool (Task.due_date x)
   then print_colored ("    Due: " +:+ py_str (Task.due_date x)) LIGHTBLACK_EX
   else ret tt).

(** [print_tasks], on the address of the list to print. *)
Definition print_tasks (tasks : addr) (title : string) : B unit :=
  l <- liftS (liftW (read_list tasks)) ;;
  match l with
  | [] => print_colored "No tasks found." YELLOW
  | _ :: _ =>
      print_colored (newline +:+ title +:+ ":") CYAN ;;;
      _ <- mapST print_task l ;;
      ret tt
  end.

(** The [try] block of [main]. *)
Definition main_body (args : command) : B unit :=
  match args with
  | CmdAdd title description priority due_date =>
      task <- liftS (add_task title description (priority_text priority) due_date) ;;
      x <- liftS (liftW (read_task task)) ;;
      print_colored ("✓ Added task: " +:+ py_str (Task.title x)) GREEN
  | CmdList status =>
      tasks <- liftS (list_tasks (status_text <$> status)) ;;
      let suffix := match status with
                    | Some s => " (" +:+ status_text s +:+ ")"
                    | None => ""
                    end in
      print_tasks tasks ("Tasks" +:+ suffix)
  | CmdComplete identifier =>
      found <- liftS (mark_task_completed (OJson (JStr identifier))) ;;
      if found
      then print_colored ("✓ Marked task as completed: " +:+ identifier) GREEN
      else print_colored ("✗ Task not found: " +:+ identifier) RED
  | CmdClear =>
      empty <- liftS is_empty ;;
      if empty
      then print_colored "To-do list is already empty." YELLOW
      else liftS clear_all_tasks ;;;
           print_colored "✓ Cleared all tasks from the to-do list." GREEN
  end.

(** [main]: the manager is constructed on the default file before the
    [try] block; an exception inside the block is printed and ends the
    program with status 1. *)
Definition main (args : command) (s : list printed * world)
  : termination * (list printed * world) :=
  match ToDoListManager_init "todo_list.json" (snd s) with
  | (Raise e, w) => (Uncaught e, (fst s, w))
  | (Ok todo_manager, w) =>
      match main_body args (fst s, (todo_manager, w)) with
      | (Ok _, (out, (_, w'))) => (Returned, (out, w'))
      | (Raise e, (out, (_, w'))) => (SysExit 1, ((out ++ [ErrorLine e])%list, w'))
      end
  end.

(** Successive runs of the program on one file system, each starting with
    an empty console: how each run ended and what it printed. *)
Fixpoint sessions (cmds : list command) (w : world)
  : list (termination * list printed) * world :=
  match cmds with
  | [] => ([], w)
  | c :: cmds' =>
      match main c ([], w) with
      | (t, (out, w')) =>
          match sessions cmds' w' with
          | (rest, w'') => ((t, out) :: rest, w'')
          end
      end
  end.




(* ================================================================== *)
(** * Properties *)

Local Open Scope list_scope.

(* ------------------------------------------------------------------ *)
(** ** Tactics and heap lemmas *)

Ltac st_unfold :=
  unfold bind, ret, raise, of_result, liftW, get_self, set_tasks, set_next_id,
    read_task, write_task, alloc_task, alloc_list, read_list, list_append,
    list_clear, read_file, json_dump, now_isoformat, try_except in *.

Ltac world_simpl :=
  unfold with_task_heap, with_list_heap, with_files, with_ticks,
    Task.set_id, Task.set_status, Task.set_created_at, Task.set_completed_at;
  simpl.

Lemma alter_snoc {A} (f : A -> A) (h : list A) (x : A) :
  alter f (length h) (h ++ [x]) = h ++ [f x].
Proof.
  replace (length h) with (length h + 0)%nat by lia.
  by rewrite alter_app_r.
Qed.

Lemma task_at_new (h : list Task.t) (x : Task.t) (lh : list (list addr))
      (f : gmap string content) (c : nat -> string) (t : nat) :
  task_at (World (h ++ [x]) lh f c t) (length h) = x.
Proof. unfold task_at. simpl. by rewrite list_lookup_middle. Qed.

Lemma list_at_fresh (w : world) (l : list addr) :
  list_at (with_list_heap (list_heap w ++ [l]) w) (length (list_heap w)) = l.
Proof. unfold list_at. simpl. by rewrite list_lookup_middle. Qed.

Lemma list_at_cleared (w : world) (a : addr) (h : list (list addr)) :
  default [] (alter (fun _ : list addr => []) a h !! a) = [].
Proof. rewrite list_lookup_alter_eq. by destruct (_ !! _). Qed.

Lemma map_task_at_ext (w w' : world) (l : list addr) :
  Forall (fun a => (a < length (task_heap w))%nat) l ->
  (forall a, (a < length (task_heap w))%nat -> task_at w' a = task_at w a) ->
  List.map (task_at w') l = List.map (task_at w) l.
Proof.
  intros Hl Heq. induction Hl as [|a l Ha Hl IH]; simpl; [done |].
  by rewrite Heq, IH.
Qed.

Lemma Forall_held (Q : Task.t -> Prop) (w : world) (l : list addr) :
  Forall (fun a => (a < length (task_heap w))%nat) l ->
  Forall Q (task_heap w) ->
  Forall Q (List.map (task_at w) l).
Proof.
  intros Hl HQ. induction Hl as [|a l Ha Hl IH]; simpl; constructor; [| done].
  unfold task_at. destruct (lookup_lt_is_Some_2 _ _ Ha) as [x Hx]. rewrite Hx. simpl.
  eapply Forall_lookup_1; [exact HQ | exact Hx].
Qed.

Lemma deref_fresh_block (h ts : list Task.t) :
  map (fun a => default Task.unallocated ((h ++ ts) !! a)) (seq (length h) (length ts)) = ts.
Proof.
  revert h. induction ts as [|x ts IH]; intros h; [done |].
  simpl. rewrite list_lookup_middle by done. simpl. f_equal.
  specialize (IH (h ++ [x])). rewrite length_app, <- app_assoc in IH. simpl in IH.
  by replace (length h + 1)%nat with (S (length h)) in IH by lia.
Qed.

Lemma numbered_S (n : nat) :
  numbered (S n) = numbered n ++ [JInt (Z.of_nat (S n))].
Proof. unfold numbered. by rewrite seq_S, List.map_app. Qed.

Lemma py_eq_str_spec (v : json) (s : string) :
  py_eq_str v s = true <-> v = JStr s.
Proof.
  destruct v; simpl; try (split; [discriminate | congruence]).
  rewrite String.eqb_eq. split; congruence.
Qed.

Lemma filter_sublist {A} (p : A -> bool) (l : list A) :
  List.filter p l `sublist_of` l.
Proof.
  induction l as [|a l IH]; simpl; [constructor |].
  destruct (p a); [apply sublist_skip | apply sublist_cons]; exact IH.
Qed.

(* ------------------------------------------------------------------ *)
(** ** Equations of the methods *)

Lemma mapST_to_dict (l : list addr) (w : world) :
  mapST Task_to_dict l w = (Ok (map (fun a => to_dict_of (task_at w a)) l), w).
Proof.
  induction l as [|a l IH]; [done |].
  simpl. unfold bind at 1. unfold Task_to_dict at 1. st_unfold. simpl.
  unfold bind in IH. rewrite IH. done.
Qed.

Lemma save_tasks_eq (self : ToDoListManager) (w : world) :
  save_tasks (self, w) =
  (Ok tt, (self, with_files (<[data_file self := Document (snapshot self w)]> (files w)) w)).
Proof.
  unfold save_tasks. st_unfold. simpl. rewrite mapST_to_dict. simpl.
  unfold snapshot, held. by rewrite map_map.
Qed.

Lemma saved_eq (self : ToDoListManager) (w : world) :
  save_tasks (self, w) = (Ok tt, saved (self, w)).
Proof. apply save_tasks_eq. Qed.

Lemma from_dict_to_dict (x : Task.t) (w : world) :
  Task_from_dict (to_dict_of x) w =
  (Ok (length (task_heap w)),
   World (task_heap w ++ [x]) (list_heap w) (files w) (clock w) (S (S (ticks w)))).
Proof.
  destruct x, w. unfold Task_from_dict, Task_init. st_unfold. simpl.
  rewrite !alter_snoc. simpl. done.
Qed.

Lemma mapST_from_dict (ts : list Task.t) (w : world) :
  mapST Task_from_dict (map to_dict_of ts) w =
  (Ok (seq (length (task_heap w)) (length ts)),
   World (task_heap w ++ ts) (list_heap w) (files w) (clock w)
         (2 * length ts + ticks w)).
Proof.
  revert w. induction ts as [|x ts IH]; intros w.
  - destruct w. simpl. by rewrite app_nil_r.
  - simpl map. simpl mapST. unfold bind at 1. rewrite from_dict_to_dict.
    unfold bind at 1. rewrite IH. unfold ret. simpl.
    rewrite length_app, <- app_assoc. simpl.
    repeat f_equal; lia.
Qed.

Lemma init_on_document (p : string) (n : json) (ts : list Task.t) (w : world) :
  files w !! p = Some (document n ts) ->
  ToDoListManager_init p w =
  (Ok (Manager p (S (length (list_heap w))) n),
   World (task_heap w ++ ts)
         (list_heap w ++ [[]] ++ [seq (length (task_heap w)) (length ts)])
         (files w) (clock w) (2 * length ts + ticks w)).
Proof.
  intros Hf. unfold ToDoListManager_init, load_tasks. st_unfold. simpl.
  rewrite Hf. unfold document. simpl.
  rewrite mapST_from_dict. simpl. rewrite length_app, <- app_assoc. simpl.
  repeat f_equal; lia.
Qed.

Lemma init_no_file (p : string) (w : world) :
  files w !! p = None ->
  ToDoListManager_init p w =
  (Ok (Manager p (length (list_heap w)) (JInt 1)),
   with_list_heap (list_heap w ++ [[]]) w).
Proof.
  intros Hf. unfold ToDoListManager_init, load_tasks. st_unfold. simpl.
  by rewrite Hf.
Qed.

Lemma init_malformed (p : string) (w : world) :
  files w !! p = Some Malformed ->
  exists self w',
    ToDoListManager_init p w = (Ok self, w') /\
    list_at w' (tasks self) = [] /\ next_id self = JInt 1.
Proof.
  intros Hf. unfold ToDoListManager_init, load_tasks. st_unfold. simpl. rewrite Hf. simpl.
  eexists _, _. split; [reflexivity |]. simpl. split; [| done].
  unfold list_at. simpl. by rewrite list_lookup_middle.
Qed.

Lemma add_task_eq (self : ToDoListManager) (w : world)
      (title description priority : string) (due_date : option string) (n : Z) :
  next_id self = JInt n ->
  add_task title description priority due_date (self, w) =
  let task := length (task_heap w) in
  let x := Task.mk (JInt n) (JStr title) (JStr description) (JStr priority)
                   (json_of_opt due_date) (JStr "pending")
                   (JStr (clock w (ticks w))) JNull in
  let self' := Manager (data_file self) (tasks self) (JInt (n + 1)) in
  let w' := World (task_heap w ++ [x])
                  (alter (fun l => l ++ [task]) (tasks self) (list_heap w))
                  (files w) (clock w) (S (ticks w)) in
  (Ok task,
   (self', with_files (<[data_file self := Document (snapshot self' w')]> (files w)) w')).
Proof.
  intros Hn. unfold add_task, Task_init. st_unfold. simpl. rewrite Hn. simpl.
  rewrite save_tasks_eq. simpl. rewrite alter_snoc. world_simpl. reflexivity.
Qed.

Lemma clear_all_tasks_eq (self : ToDoListManager) (w : world) :
  clear_all_tasks (self, w) =
  let self' := Manager (data_file self) (tasks self) (JInt 1) in
  let w' := with_list_heap (alter (fun _ => []) (tasks self) (list_heap w)) w in
  (Ok tt,
   (self', with_files (<[data_file self := Document (snapshot self' w')]> (files w)) w')).
Proof.
  unfold clear_all_tasks. st_unfold. simpl. rewrite save_tasks_eq. reflexivity.
Qed.

Lemma list_tasks_eq (self : ToDoListManager) (w : world) (status_filter : option string) :
  list_tasks status_filter (self, w) =
  let l := list_at w (tasks self) in
  let sel := if truthy status_filter
             then with_status w (default "" status_filter) l else l in
  (Ok (length (list_heap w)), (self, with_list_heap (list_heap w ++ [sel]) w)).
Proof.
  unfold list_tasks. st_unfold. simpl.
  destruct status_filter as [[|c s]|]; reflexivity.
Qed.

Lemma count_tasks_eq (self : ToDoListManager) (w : world) (status : option string) :
  count_tasks status (self, w) =
  let l := list_at w (tasks self) in
  (Ok (len (if truthy status then with_status w (default "" status) l else l)), (self, w)).
Proof.
  unfold count_tasks. st_unfold. simpl.
  destruct status as [[|c s]|]; reflexivity.
Qed.

Lemma Task_mark_completed_eq (a : addr) (w : world) :
  Task_mark_completed a w = (Ok tt, mark_effect w a).
Proof.
  unfold Task_mark_completed, mark_effect. st_unfold. simpl.
  unfold with_task_heap, with_ticks. simpl. by rewrite list_alter_alter_eq.
Qed.

Lemma get_task_by_id_eq (task_id : Z) (self : ToDoListManager) (w : world) :
  get_task_by_id task_id (self, w) =
  (Ok (List.find (fun a => py_eq_int (Task.id (task_at w a)) task_id)
                 (list_at w (tasks self))), (self, w)).
Proof. reflexivity. Qed.

Lemma get_task_by_title_eq (title : string) (self : ToDoListManager) (w : world) :
  get_task_by_title title (self, w) =
  (find_title w title (list_at w (tasks self)), (self, w)).
Proof. reflexivity. Qed.

Lemma resolve_state (identifier : pyobj) (s : state) :
  snd (resolve identifier s) = s.
Proof.
  destruct s as [self w]. unfold resolve.
  destruct (isinstance_int identifier) as [n|]; [reflexivity |].
  destruct (isinstance_str identifier) as [str|]; [| reflexivity].
  destruct (py_int str) as [n|]; reflexivity.
Qed.

Lemma mark_task_completed_via_resolve (identifier : pyobj) (s : state) :
  mark_task_completed identifier s =
  match fst (resolve identifier s) with
  | Ok r => outcome r s
  | Raise e => (Raise e, s)
  end.
Proof.
  pose proof (resolve_state identifier s) as Hs.
  change (mark_task_completed identifier s) with
    (bind (resolve identifier)
          (fun task => match task with
                       | Some a => bind (liftW (Task_mark_completed a))
                                     (fun _ => bind save_tasks (fun _ => ret true))
                       | None => ret false
                       end) s).
  unfold bind at 1. destruct (resolve identifier s) as [[r|e] s']; simpl in *; subst s';
    [| reflexivity].
  destruct r as [a|]; [| reflexivity]. destruct s as [self w].
  unfold bind, liftW, ret. cbn [fst snd].
  rewrite Task_mark_completed_eq, saved_eq. reflexivity.
Qed.


(* ------------------------------------------------------------------ *)
(** ** Lookups find the first match *)





(* ------------------------------------------------------------------ *)
(** ** The invariant of a running store *)

Section Invariant.
Variable Q : Task.t -> Prop.
Variable p : string.

(** [Q] holds of a task as [add_task] creates it and is kept by
    [Task.mark_completed]. *)
Hypothesis Q_new : forall id title description priority due_date created_at,
    Q (Task.mk id title description priority due_date (JStr "pending") created_at JNull).
Hypothesis Q_mark : forall x now,
    Q (Task.set_completed_at (JStr now) (Task.set_status (JStr "completed") x)).

Lemma mem_ok_saved (s : state) : mem_ok Q p s -> store_ok Q p (saved s).
Proof.
  destruct s as [self w]. intros Hm. split; [exact Hm |].
  unfold mem_ok in Hm. simpl in Hm. destruct Hm as (Hp & Hl & Hv & Hids & Hn & HQ).
  intros c. simpl. rewrite Hp, lookup_insert_eq.
  intros [= <-]. exists (held self w). split; [by rewrite Hn |].
  split; [done |]. by apply Forall_held.
Qed.

Lemma mem_ok_mark_effect (self : ToDoListManager) (w : world) (a : addr) :
  mem_ok Q p (self, w) -> mem_ok Q p (self, mark_effect w a).
Proof.
  intros Hm. unfold mem_ok in Hm. simpl in Hm.
  destruct Hm as (Hp & Hl & Hv & Hids & Hn & HQ).
  unfold mem_ok, held, list_at in *. simpl in *.
  assert (Hid : forall l : list addr,
             List.map Task.id (List.map (task_at (mark_effect w a)) l) =
             List.map Task.id (List.map (task_at w) l)).
  { intros l. rewrite !List.map_map. apply List.map_ext. intros b.
    unfold task_at, mark_effect. simpl. rewrite list_lookup_alter.
    case_decide; [subst b |]; [| done]. by destruct (task_heap w !! a). }
  assert (Hlen : forall l : list addr,
             length (List.map (task_at (mark_effect w a)) l) =
             length (List.map (task_at w) l)).
  { intros l. by rewrite !length_map. }
  split; [done |]. split; [done |].
  split; [by rewrite length_alter |].
  split; [by rewrite Hid, Hlen |].
  split; [unfold len in *; by rewrite Hlen |].
  apply Forall_alter; [done |]. intros x _ _. apply Q_mark.
Qed.

Lemma store_ok_mark (identifier : pyobj) (s : state) :
  store_ok Q p s -> store_ok Q p (snd (mark_task_completed identifier s)).
Proof.
  intros [Hm Hf]. destruct s as [self w].
  assert (Hcases : snd (mark_task_completed identifier (self, w)) = (self, w) \/
                   exists a, snd (mark_task_completed identifier (self, w)) =
                             saved (self, mark_effect w a)).
  { rewrite mark_task_completed_via_resolve.
    destruct (fst (resolve identifier (self, w))) as [[a|]|e]; [right | by left | by left].
    by exists a. }
  destruct Hcases as [-> | [a ->]]; [done |].
  by apply mem_ok_saved, mem_ok_mark_effect.
Qed.

Lemma store_ok_save (s : state) : store_ok Q p s -> store_ok Q p (snd (save_tasks s)).
Proof.
  intros [Hm _]. destruct s as [self w]. rewrite saved_eq. by apply mem_ok_saved.
Qed.

Lemma store_ok_clear (s : state) : store_ok Q p s -> store_ok Q p (snd (clear_all_tasks s)).
Proof.
  intros [Hm _]. destruct s as [self w]. rewrite clear_all_tasks_eq. cbn [snd].
  unfold mem_ok in Hm. simpl in Hm. destruct Hm as (Hp & Hl & Hv & Hids & Hn & HQ).
  apply (mem_ok_saved
           (Manager (data_file self) (tasks self) (JInt 1),
            with_list_heap (alter (fun _ => []) (tasks self) (list_heap w)) w)).
  unfold mem_ok, held, list_at. simpl.
  rewrite (list_at_cleared w). simpl.
  split; [done |]. split; [by rewrite length_alter |]. by repeat split.
Qed.

Lemma store_ok_add (s : state) (title description priority : string)
      (due_date : option string) :
  store_ok Q p s ->
  store_ok Q p (snd (add_task title description priority due_date s)).
Proof.
  intros [Hm _]. destruct s as [self w].
  unfold mem_ok in Hm. simpl in Hm. destruct Hm as (Hp & Hl & Hv & Hids & Hn & HQ).
  rewrite (add_task_eq _ _ _ _ _ _ _ Hn). cbn [snd].
  match goal with
  | |- store_ok _ _ (?m, with_files _ ?w') => apply (mem_ok_saved (m, w'))
  end.
  destruct (lookup_lt_is_Some_2 _ _ Hl) as [l Hlk].
  unfold held, list_at in *. rewrite Hlk in *. simpl in *.
  unfold mem_ok, held, list_at. simpl.
  rewrite list_lookup_alter_eq, Hlk. simpl.
  rewrite List.map_app. simpl.
  assert (Hold : List.map
            (task_at (World (task_heap w ++ [Task.mk (JInt (len (List.map (task_at w) l) + 1))
                               (JStr title) (JStr description) (JStr priority)
                               (json_of_opt due_date) (JStr "pending")
                               (JStr (clock w (ticks w))) JNull])
                            (alter (fun l0 => l0 ++ [length (task_heap w)]) (tasks self)
                                   (list_heap w))
                            (files w) (clock w) (S (ticks w)))) l
          = List.map (task_at w) l).
  { apply map_task_at_ext; [done |]. intros a Ha. unfold task_at. simpl.
    by rewrite lookup_app_l. }
  rewrite Hold, !task_at_new.
  split; [done |]. split; [by rewrite length_alter |].
  split.
  { rewrite length_app. simpl. apply Forall_app. split.
    - eapply Forall_impl; [exact Hv |]. simpl. intros; lia.
    - repeat constructor. lia. }
  split.
  { rewrite List.map_app, length_app. simpl.
    replace (length (List.map (task_at w) l) + 1)%nat
      with (S (length (List.map (task_at w) l))) by lia.
    rewrite numbered_S, Hids. repeat f_equal. unfold len. lia. }
  split.
  { unfold len. rewrite length_app. simpl. f_equal. lia. }
  apply Forall_app. split; [done |]. repeat constructor. apply Q_new.
Qed.

Lemma store_ok_list (s : state) (status_filter : option string) :
  store_ok Q p s -> store_ok Q p (snd (list_tasks status_filter s)).
Proof.
  intros [Hm Hf]. destruct s as [self w]. rewrite list_tasks_eq. cbn [snd].
  unfold mem_ok in Hm. simpl in Hm. destruct Hm as (Hp & Hl & Hv & Hids & Hn & HQ).
  split; [| exact Hf].
  unfold mem_ok, held, list_at in *. simpl.
  rewrite lookup_app_l by done.
  split; [done |]. split; [rewrite length_app; lia |]. done.
Qed.

Lemma store_ok_task_mark (s : state) (a : addr) :
  store_ok Q p s -> store_ok Q p (fst s, snd (Task_mark_completed a (snd s))).
Proof.
  intros [Hm Hf]. destruct s as [self w]. cbn [fst snd].
  rewrite Task_mark_completed_eq. cbn [snd].
  split; [by apply mem_ok_mark_effect | exact Hf].
Qed.

Lemma store_ok_init (w : world) :
  Forall Q (task_heap w) -> file_ok Q p w ->
  exists self w',
    ToDoListManager_init p w = (Ok self, w') /\ store_ok Q p (self, w').
Proof.
  intros HQ Hf. destruct (files w !! p) as [c|] eqn:E.
  - destruct (Hf c E) as (ts & -> & Hids & Hts).
    eexists _, _. split; [by apply init_on_document |].
    split; [| exact Hf].
    unfold mem_ok, held, list_at, task_at. simpl.
    rewrite lookup_app_r by lia.
    replace (S (length (list_heap w)) - length (list_heap w))%nat with 1%nat by lia.
    simpl. rewrite deref_fresh_block.
    split; [done |]. split; [rewrite length_app; simpl; lia |].
    split.
    { apply Forall_seq. intros j Hj. rewrite length_app. lia. }
    split; [done |]. split; [done |]. by apply Forall_app.
  - eexists _, _. split; [by apply init_no_file |].
    split; [| exact Hf].
    unfold mem_ok, held, list_at. simpl. rewrite list_lookup_middle by done. simpl.
    split; [done |]. split; [rewrite length_app; simpl; lia |]. by repeat split.
Qed.

Lemma store_ok_step (o : op) (s : state) : store_ok Q p s -> store_ok Q p (step o s).
Proof.
  intros Hs. destruct o; simpl.
  - by apply store_ok_add.
  - by apply store_ok_mark.
  - by apply store_ok_clear.
  - by apply store_ok_save.
  - by apply store_ok_list.
  - by apply store_ok_task_mark.
  - destruct Hs as [Hm Hf]. destruct s as [self w].
    assert (Hp : data_file self = p) by apply Hm.
    destruct (store_ok_init w) as (self' & w' & Hinit & Hok); [apply Hm | exact Hf |].
    cbn [fst snd]. by rewrite Hp, Hinit.
Qed.

Lemma store_ok_run (ops : list op) (s : state) : store_ok Q p s -> store_ok Q p (run ops s).
Proof.
  revert s. induction ops as [|o ops IH]; intros s Hs; [done |].
  simpl. apply IH. by apply store_ok_step.
Qed.

End Invariant.

Lemma file_ok_absent (Q : Task.t -> Prop) (p : string) (w : world) :
  files w !! p = None -> file_ok Q p w.
Proof. intros Hf c Hc. congruence. Qed.

(* ------------------------------------------------------------------ *)
(** ** Identifiers *)

(** C1, as stated, fails: an add, a clear and a second add on a fresh store
    hand out the id 1 twice, to two different task objects, so the ids of
    a run are neither strictly increasing nor free of reuse. *)
Lemma ids_reused_after_clear :
  let r1 := add_task "a" "" "medium" None s_fresh in
  let r2 := clear_all_tasks (snd r1) in
  let r3 := add_task "b" "" "medium" None (snd r2) in
  fst r1 = Ok 0%nat /\ fst r2 = Ok tt /\ fst r3 = Ok 1%nat /\
  Task.id (task_at (snd (snd r1)) 0) = JInt 1 /\
  Task.id (task_at (snd (snd r3)) 1) = JInt 1 /\
  ~ (exists i j, Task.id (task_at (snd (snd r1)) 0) = JInt i /\
                 Task.id (task_at (snd (snd r3)) 1) = JInt j /\ i < j).
Proof.
  vm_compute. repeat split. intros (i & j & [= <-] & [= <-] & H). discriminate.
Qed.

(** C1, amended.  On a store constructed without a backing file, after any
    sequence of operations the held tasks carry the ids 1, 2, ..., n in
    insertion order (so they are pairwise distinct and have no gaps), the
    counter is n + 1, and the next [add_task] assigns n + 1 and appends the
    new task.  Since [clear_all_tasks] empties the collection, numbering
    restarts at 1 after a clear. *)
Theorem ids_numbered_between_clears (p : string) (w0 : world) (ops : list op) :
  files w0 !! p = None ->
  exists self0 w0',
    ToDoListManager_init p w0 = (Ok self0, w0') /\
    let s := run ops (self0, w0') in
    let n := length (held (fst s) (snd s)) in
    List.map Task.id (held (fst s) (snd s)) = numbered n /\
    next_id (fst s) = JInt (Z.of_nat n + 1) /\
    forall title description priority due_date,
    exists task s',
      add_task title description priority due_date s = (Ok task, s') /\
      Task.id (task_at (snd s') task) = JInt (Z.of_nat n + 1) /\
      held (fst s') (snd s') = held (fst s) (snd s) ++ [task_at (snd s') task].
Proof.
  intros Hf.
  destruct (store_ok_init (fun _ => True) p w0) as (self0 & w0' & Hinit & Hok).
  { by apply Forall_true. }
  { by apply file_ok_absent. }
  exists self0, w0'. split; [done |].
  pose proof (store_ok_run (fun _ => True) p (fun _ _ _ _ _ _ => I) (fun _ _ => I)
                           ops _ Hok) as [Hm _].
  destruct (run ops (self0, w0')) as [self w]. cbn [fst snd] in *.
  unfold mem_ok in Hm. simpl in Hm. destruct Hm as (Hp & Hl & Hv & Hids & Hn & _).
  split; [done |]. split; [done |].
  intros title description priority due_date.
  eexists _, _. split; [by apply add_task_eq |]. cbn [fst snd].
  unfold with_files. simpl. rewrite task_at_new. split; [done |].
  destruct (lookup_lt_is_Some_2 _ _ Hl) as [l Hlk].
  unfold held, list_at in *. simpl. rewrite list_lookup_alter_eq, Hlk in *. simpl in *.
  rewrite List.map_app. simpl. rewrite task_at_new. f_equal.
  apply map_task_at_ext; [done |]. intros a Ha. unfold task_at. simpl.
  by rewrite lookup_app_l.
Qed.

Lemma ids_numbered_between_clears_witness :
  exists self0 w0',
    ToDoListManager_init "todo_list.json" w_empty = (Ok self0, w0') /\
    next_id (fst (run [OpAdd "a" "" "low" None; OpClear; OpAdd "b" "" "high" None]
                      (self0, w0'))) = JInt 2.
Proof.
  destruct (ids_numbered_between_clears "todo_list.json" w_empty
              [OpAdd "a" "" "low" None; OpClear; OpAdd "b" "" "high" None])
    as (self0 & w0' & Hinit & Hids & Hnext & _); [reflexivity |].
  exists self0, w0'. split; [exact Hinit |].
  rewrite Hnext. rewrite init_no_file in Hinit by reflexivity.
  injection Hinit as <- <-. reflexivity.
Defined.

(* ------------------------------------------------------------------ *)
(** ** Completing a task *)




(** C9.  An identifier that is neither an [int] nor a [str] makes
    [mark_task_completed] return [False] without an exception and leaves
    the manager, the heap and the files as they were. *)
Theorem mark_task_completed_other_type
        (self : ToDoListManager) (w : world) (identifier : pyobj) :
  isinstance_int identifier = None ->
  isinstance_str identifier = None ->
  mark_task_completed identifier (self, w) = (Ok false, (self, w)).
Proof.
  intros Hi Hs. unfold mark_task_completed. rewrite Hi, Hs. reflexivity.
Qed.

Lemma mark_task_completed_other_type_witness :
  isinstance_int (OJson JNull) = None /\
  isinstance_str (OJson JNull) = None /\
  mark_task_completed (OJson JNull) s_fresh = (Ok false, s_fresh).
Proof.
  split; [reflexivity |]. split; [reflexivity |].
  apply (mark_task_completed_other_type _ _ (OJson JNull)); reflexivity.
Defined.

(* ------------------------------------------------------------------ *)
(** ** Loading and saving *)

(** C3, evaluated on files that parse but do not have the expected
    structure: a top-level list, a [tasks] entry that is a number, and a
    task entry that is a number.  The constructor raises [AttributeError]
    or [TypeError]; only [JSONDecodeError] and [KeyError] are caught. *)
Theorem init_raises_on_top_level_list :
  fst (ToDoListManager_init "todo_list.json" (w_file (Document (JList [])))) =
    Raise AttributeError /\
  fst (ToDoListManager_init "todo_list.json"
         (w_file (Document (JDict [("next_id", JInt 1); ("tasks", JInt 5)])))) =
    Raise TypeError /\
  fst (ToDoListManager_init "todo_list.json"
         (w_file (Document (JDict [("next_id", JInt 1); ("tasks", JList [JInt 5])])))) =
    Raise TypeError.
Proof. vm_compute. repeat split. Qed.

Lemma init_not_a_mapping (p : string) (v : json) (w : world) :
  files w !! p = Some (Document v) ->
  (forall d, v <> JDict d) ->
  fst (ToDoListManager_init p w) = Raise AttributeError.
Proof.
  intros Hf Hv. unfold ToDoListManager_init, load_tasks. st_unfold. simpl. rewrite Hf.
  destruct v as [| | | | |d]; try reflexivity. by destruct (Hv d).
Qed.

Example init_missing_title :
  fst (ToDoListManager_init "todo_list.json"
         (w_file (Document (JDict [("next_id", JInt 7);
                                   ("tasks", JList [JDict [("id", JInt 1)]])])))) =
  Ok (Manager "todo_list.json" 1 (JInt 1)).
Proof. vm_compute. reflexivity. Qed.


(** C5.  [clear_all_tasks] empties the collection, resets [next_id] to 1 and
    writes the empty store; [is_empty] then returns [True], and the next
    [add_task] assigns the id 1. *)
Theorem clear_then_is_empty_then_first_id
        (self : ToDoListManager) (w : world)
        (title description priority : string) (due_date : option string) :
  exists self1 w1,
    clear_all_tasks (self, w) = (Ok tt, (self1, w1)) /\
    list_at w1 (tasks self1) = [] /\
    next_id self1 = JInt 1 /\
    files w1 !! data_file self1 = Some (document (JInt 1) []) /\
    is_empty (self1, w1) = (Ok true, (self1, w1)) /\
    exists task self2 w2,
      add_task title description priority due_date (self1, w1) = (Ok task, (self2, w2)) /\
      Task.id (task_at w2 task) = JInt 1.
Proof.
  eexists _, _. split; [apply clear_all_tasks_eq |]. simpl.
  assert (Hl : list_at (with_list_heap (alter (fun _ => []) (tasks self) (list_heap w)) w)
                       (tasks self) = []).
  { unfold list_at. simpl. apply (list_at_cleared w). }
  unfold list_at in *. simpl in *.
  split; [exact Hl |]. split; [done |]. split.
  { rewrite lookup_insert_eq. unfold snapshot, held, list_at. simpl. by rewrite Hl. }
  split.
  { unfold is_empty. st_unfold. simpl. unfold list_at. simpl. by rewrite Hl. }
  eexists _, _, _. split; [by apply add_task_eq |].
  unfold task_at. simpl. by rewrite list_lookup_middle.
Qed.

(* ------------------------------------------------------------------ *)
(** ** Listing and counting *)

(** C6, as stated, fails: the filter [""] is given and is no status of any
    task, yet [list_tasks] returns the pending task. *)
Lemma list_tasks_empty_string_returns_all :
  let r := list_tasks (Some "") s_one in
  fst r = Ok 1%nat /\
  list_at (snd (snd r)) 1 = [0%nat] /\
  Task.status (task_at (snd (snd r)) 0) = JStr "pending" /\
  ~ (forall a, a ∈ list_at (snd (snd r)) 1 ->
               Task.status (task_at (snd s_one) a) = JStr "").
Proof.
  vm_compute. repeat split. intros H.
  specialize (H 0%nat (list_elem_of_here _ _)). discriminate.
Qed.

(** C6, amended.  For a non-empty filter string, [list_tasks] returns a new
    list object (not allocated before; the existing list objects, the
    tasks and the files are untouched) that holds, in insertion order,
    exactly the held tasks whose status equals the filter; when every held
    task is pending or completed, any other non-empty filter yields the
    empty list. *)
Theorem list_tasks_nonempty_filter
        (self : ToDoListManager) (w : world) (s : string) :
  s <> "" ->
  exists result w',
    list_tasks (Some s) (self, w) = (Ok result, (self, w')) /\
    (* a new list object; the existing ones are left as they were *)
    list_heap w !! result = None /\
    (forall b l, list_heap w !! b = Some l -> list_heap w' !! b = Some l) /\
    task_heap w' = task_heap w /\
    files w' = files w /\
    (* exactly the held tasks with that status, in insertion order *)
    list_at w' result `sublist_of` list_at w (tasks self) /\
    (forall a, a ∈ list_at w' result <->
               a ∈ list_at w (tasks self) /\ Task.status (task_at w a) = JStr s) /\
    (* a value that is no status of a held task selects nothing *)
    ((forall a, a ∈ list_at w (tasks self) ->
                Task.status (task_at w a) = JStr "pending" \/
                Task.status (task_at w a) = JStr "completed") ->
     s <> "pending" -> s <> "completed" -> list_at w' result = []).
Proof.
  intros Hs.
  exists (length (list_heap w)),
         (with_list_heap (list_heap w ++ [with_status w s (list_at w (tasks self))]) w).
  split; [rewrite list_tasks_eq; destruct s; [done | reflexivity] |]. simpl.
  split; [apply lookup_ge_None; lia |].
  split; [intros b l Hb; rewrite lookup_app_l; [done | by eapply lookup_lt_Some] |].
  split; [done |]. split; [done |].
  rewrite list_at_fresh. unfold with_status.
  assert (Hin : forall a, a ∈ List.filter (fun a => py_eq_str (Task.status (task_at w a)) s)
                                          (list_at w (tasks self)) <->
                          a ∈ list_at w (tasks self) /\ Task.status (task_at w a) = JStr s).
  { intros a. rewrite !list_elem_of_In, List.filter_In, py_eq_str_spec. done. }
  split; [| split; [exact Hin |]].
  - apply filter_sublist.
  - intros Hst Hp Hc.
    apply elem_of_nil_inv. intros a Ha.
    apply Hin in Ha as [Ha1 Ha2].
    destruct (Hst a Ha1) as [H|H]; rewrite H in Ha2; congruence.
Qed.

Lemma list_tasks_nonempty_filter_witness :
  "completed" <> "" /\
  exists result w',
    list_tasks (Some "completed") s_one = (Ok result, (fst s_one, w')) /\
    list_at w' result = [].
Proof.
  split; [discriminate |].
  destruct (list_tasks_nonempty_filter (fst s_one) (snd s_one) "completed")
    as (result & w' & Heq & _ & _ & _ & _ & _ & Hin & _); [discriminate |].
  exists result, w'. split; [exact Heq |].
  apply elem_of_nil_inv. intros a Ha. apply Hin in Ha as [Ha Hst].
  vm_compute in Ha. apply list_elem_of_singleton in Ha. subst a. discriminate.
Defined.

(** C10.  For every status argument, [None] and [""] included,
    [count_tasks] returns the length of the list that [list_tasks]
    returns for the same argument. *)
Theorem count_tasks_is_len_of_list_tasks
        (self : ToDoListManager) (w : world) (s : option string) :
  exists result w',
    list_tasks s (self, w) = (Ok result, (self, w')) /\
    count_tasks s (self, w) = (Ok (len (list_at w' result)), (self, w)).
Proof.
  eexists _, _. split; [apply list_tasks_eq |].
  rewrite count_tasks_eq. simpl. by rewrite list_at_fresh.
Qed.

(* ------------------------------------------------------------------ *)
(** ** The completion invariant *)

Example from_dict_foreign_document :
  let r := Task_from_dict (JDict [("title", JStr "Test task"); ("status", JStr "completed")])
                          w_empty in
  fst r = Ok 0%nat /\
  Task.status (task_at (snd r) 0) = JStr "completed" /\
  Task.completed_at (task_at (snd r) 0) = JNull.
Proof. vm_compute. repeat split. Qed.

(** C7, as stated, fails: loading is one of the store's operations, and
    [from_dict] takes [status] and [completed_at] from the file as they
    are.  A store constructed on a file with one task entry whose status
    is [completed] and which has no [completed_at] holds a completed task
    without a completion time. *)
Lemma loaded_task_completed_without_completed_at :
  let c := Document (JDict [("tasks", JList [JDict [("id", JInt 1);
                                                    ("title", JStr "Test task");
                                                    ("status", JStr "completed")]]);
                            ("next_id", JInt 2)]) in
  let r := ToDoListManager_init "todo_list.json" (w_file c) in
  exists self,
    fst r = Ok self /\
    list_at (snd r) (tasks self) = [0%nat] /\
    Task.status (task_at (snd r) 0) = JStr "completed" /\
    Task.completed_at (task_at (snd r) 0) = JNull /\
    ~ task_inv (task_at (snd r) 0).
Proof.
  eexists. split; [vm_compute; reflexivity |].
  split; [vm_compute; reflexivity |].
  split; [vm_compute; reflexivity |].
  split; [vm_compute; reflexivity |].
  unfold task_inv. intros [_ H]. apply H; vm_compute; reflexivity.
Qed.

(** C7, amended.  On a store constructed without a backing file, after any
    sequence of add, mark_completed, clear, save, list, direct
    [Task.mark_completed] and re-construction on the same file, every
    task object, every held task and every task in the file has
    [completed_at] set exactly when its status is [completed]. *)
Theorem completed_at_iff_completed (p : string) (w0 : world) (ops : list op) :
  files w0 !! p = None ->
  Forall task_inv (task_heap w0) ->
  exists self0 w0',
    ToDoListManager_init p w0 = (Ok self0, w0') /\
    let s := run ops (self0, w0') in
    Forall task_inv (task_heap (snd s)) /\
    Forall task_inv (held (fst s) (snd s)) /\
    (forall c, files (snd s) !! p = Some c ->
       exists n ts, c = document n ts /\ Forall task_inv ts).
Proof.
  intros Hf HQ.
  destruct (store_ok_init task_inv p w0) as (self0 & w0' & Hinit & Hok);
    [done | by apply file_ok_absent |].
  exists self0, w0'. split; [done |].
  assert (Hnew : forall id title description priority due_date created_at,
             task_inv (Task.mk id title description priority due_date
                               (JStr "pending") created_at JNull)).
  { intros. unfold task_inv. simpl. split; [done | discriminate]. }
  assert (Hmark : forall x now,
             task_inv (Task.set_completed_at (JStr now)
                         (Task.set_status (JStr "completed") x))).
  { intros. unfold task_inv. simpl. split; [done | discriminate]. }
  pose proof (store_ok_run task_inv p Hnew Hmark ops _ Hok) as [Hm Hfile].
  destruct (run ops (self0, w0')) as [self w]. cbn [fst snd] in *.
  unfold mem_ok in Hm. simpl in Hm. destruct Hm as (Hp & Hl & Hv & Hids & Hn & Hheap).
  split; [done |]. split; [by apply Forall_held |].
  intros c Hc. destruct (Hfile c Hc) as (ts & -> & _ & Hts). eauto.
Qed.

Lemma completed_at_iff_completed_witness :
  exists self0 w0',
    ToDoListManager_init "todo_list.json" w_empty = (Ok self0, w0') /\
    Forall task_inv
      (held (fst (run [OpAdd "a" "" "low" None; OpMark (OJson (JStr "A")); OpSave; OpReopen]
                      (self0, w0')))
            (snd (run [OpAdd "a" "" "low" None; OpMark (OJson (JStr "A")); OpSave; OpReopen]
                      (self0, w0')))).
Proof.
  destruct (completed_at_iff_completed "todo_list.json" w_empty
              [OpAdd "a" "" "low" None; OpMark (OJson (JStr "A")); OpSave; OpReopen])
    as (self0 & w0' & Hinit & _ & Hheld & _); [reflexivity | constructor |].
  exists self0, w0'. split; [exact Hinit | exact Hheld].
Defined.

(* ------------------------------------------------------------------ *)
(** ** Display *)



(* ================================================================== *)
(** * Further properties *)

(* ------------------------------------------------------------------ *)
(** ** Lookup by id on a running store *)

Lemma find_numbered (f : addr -> json) (n : Z) (l : list addr) (k : nat) :
  List.map f l = List.map (fun i => JInt (Z.of_nat i)) (seq k (length l)) ->
  List.find (fun a => py_eq_int (f a) n) l =
  if Z.leb (Z.of_nat k) n then l !! (Z.to_nat (n - Z.of_nat k)) else None.
Proof.
  revert k. induction l as [|a l IH]; intros k Hl; simpl.
  - destruct (Z.leb_spec (Z.of_nat k) n); [| done].
    by rewrite lookup_nil.
  - simpl in Hl. injection Hl as Ha Hl. rewrite Ha. simpl.
    destruct (Z.eqb_spec (Z.of_nat k) n) as [<- | Hne].
    + rewrite Z.leb_refl. by replace (Z.of_nat k - Z.of_nat k) with 0 by lia.
    + rewrite (IH (S k) Hl).
      destruct (Z.leb_spec (Z.of_nat (S k)) n), (Z.leb_spec (Z.of_nat k) n); try lia; [| done].
      replace (Z.to_nat (n - Z.of_nat k)) with (S (Z.to_nat (n - Z.of_nat (S k)))) by lia.
      done.
Qed.

(** X1.  On a store constructed without a backing file and driven by any
    operations, [get_task_by_id n] returns the n-th held task when n is
    between 1 and the number of held tasks and [None] otherwise; a task it
    returns has the id n; the lookup changes nothing. *)
Theorem get_task_by_id_on_running_store (p : string) (w0 : world) (ops : list op) (n : Z) :
  files w0 !! p = None ->
  exists self0 w0',
    ToDoListManager_init p w0 = (Ok self0, w0') /\
    let s := run ops (self0, w0') in
    let l := list_at (snd s) (tasks (fst s)) in
    get_task_by_id n s = (Ok (if Z.leb 1 n then l !! Z.to_nat (n - 1) else None), s) /\
    (forall a, fst (get_task_by_id n s) = Ok (Some a) ->
               1 <= n <= len l /\ Task.id (task_at (snd s) a) = JInt n).
Proof.
  intros Hf.
  destruct (store_ok_init (fun _ => True) p w0) as (self0 & w0' & Hinit & Hok).
  { by apply Forall_true. }
  { by apply file_ok_absent. }
  exists self0, w0'. split; [done |].
  pose proof (store_ok_run (fun _ => True) p (fun _ _ _ _ _ _ => I) (fun _ _ => I)
                           ops _ Hok) as [Hm _].
  destruct (run ops (self0, w0')) as [self w]. cbn [fst snd] in *.
  unfold mem_ok in Hm. simpl in Hm. destruct Hm as (Hp & Hl & Hv & Hids & Hn & _).
  unfold held, numbered in Hids. rewrite List.map_map, length_map in Hids.
  rewrite get_task_by_id_eq.
  rewrite (find_numbered (fun a => Task.id (task_at w a)) n _ 1 Hids).
  change (Z.of_nat 1) with 1. split; [done |]. intros a. simpl.
  destruct (Z.leb_spec 1 n) as [H1|H1]; [| discriminate]. intros [= Ha].
  assert (Hlt : (Z.to_nat (n - 1) < length (list_at w (tasks self)))%nat)
    by (by eapply lookup_lt_Some).
  split; [unfold len; lia |].
  assert (Hid : List.map (fun a => Task.id (task_at w a)) (list_at w (tasks self))
                !! Z.to_nat (n - 1) = Some (Task.id (task_at w a))).
  { by rewrite list_lookup_fmap, Ha. }
  rewrite Hids, list_lookup_fmap, lookup_seq_lt in Hid by done.
  simpl in Hid. injection Hid as <-. f_equal. lia.
Qed.

Lemma get_task_by_id_on_running_store_witness :
  exists self0 w0',
    ToDoListManager_init "todo_list.json" w_empty = (Ok self0, w0') /\
    fst (get_task_by_id 5 (run [OpAdd "a" "" "low" None; OpAdd "b" "" "low" None]
                               (self0, w0'))) = Ok None.
Proof.
  destruct (get_task_by_id_on_running_store "todo_list.json" w_empty
              [OpAdd "a" "" "low" None; OpAdd "b" "" "low" None] 5)
    as (self0 & w0' & Hinit & Hget & _); [reflexivity |].
  exists self0, w0'. split; [exact Hinit |]. rewrite Hget. cbn [fst].
  rewrite init_no_file in Hinit by reflexivity. injection Hinit as <- <-. reflexivity.
Defined.

(* ------------------------------------------------------------------ *)
(** ** Counting by status *)

Lemma count_partition (w : world) (l : list addr) :
  Forall (fun a => status_known (task_at w a)) l ->
  (length (with_status w "pending" l) + length (with_status w "completed" l))%nat = length l.
Proof.
  intros Hl. unfold with_status. induction Hl as [|a l Ha Hl IH]; simpl; [done |].
  destruct Ha as [Ha|Ha]; rewrite Ha; simpl; lia.
Qed.

(** X2.  On such a store every task is pending or completed, so the pending
    count and the completed count add up to the total count. *)
Theorem counts_partition_on_running_store (p : string) (w0 : world) (ops : list op) :
  files w0 !! p = None ->
  Forall status_known (task_heap w0) ->
  exists self0 w0',
    ToDoListManager_init p w0 = (Ok self0, w0') /\
    let s := run ops (self0, w0') in
    exists total pending completed,
      count_tasks None s = (Ok total, s) /\
      count_tasks (Some "pending") s = (Ok pending, s) /\
      count_tasks (Some "completed") s = (Ok completed, s) /\
      pending + completed = total /\
      0 <= pending /\ 0 <= completed.
Proof.
  intros Hf HQ.
  destruct (store_ok_init status_known p w0) as (self0 & w0' & Hinit & Hok);
    [done | by apply file_ok_absent |].
  exists self0, w0'. split; [done |].
  assert (Hnew : forall id title description priority due_date created_at,
             status_known (Task.mk id title description priority due_date
                                   (JStr "pending") created_at JNull)).
  { intros. by left. }
  assert (Hmark : forall x now,
             status_known (Task.set_completed_at (JStr now)
                             (Task.set_status (JStr "completed") x))).
  { intros. by right. }
  pose proof (store_ok_run status_known p Hnew Hmark ops _ Hok) as [Hm _].
  destruct (run ops (self0, w0')) as [self w]. cbn [fst snd] in *.
  unfold mem_ok in Hm. simpl in Hm. destruct Hm as (Hp & Hl & Hv & Hids & Hn & Hheap).
  eexists _, _, _. rewrite !count_tasks_eq. simpl.
  split; [done |]. split; [done |]. split; [done |].
  assert (Hst : Forall (fun a => status_known (task_at w a)) (list_at w (tasks self))).
  { pose proof (Forall_held status_known w _ Hv Hheap) as H.
    by rewrite Forall_fmap in H. }
  pose proof (count_partition w _ Hst). unfold len. lia.
Qed.

Lemma counts_partition_on_running_store_witness :
  exists self0 w0',
    ToDoListManager_init "todo_list.json" w_empty = (Ok self0, w0') /\
    exists pending completed,
      count_tasks (Some "pending")
        (run [OpAdd "a" "" "low" None; OpAdd "b" "" "low" None; OpMark (OJson (JInt 2))]
             (self0, w0')) = (Ok pending, run [OpAdd "a" "" "low" None; OpAdd "b" "" "low" None; OpMark (OJson (JInt 2))] (self0, w0')) /\
      count_tasks (Some "completed")
        (run [OpAdd "a" "" "low" None; OpAdd "b" "" "low" None; OpMark (OJson (JInt 2))]
             (self0, w0')) = (Ok completed, run [OpAdd "a" "" "low" None; OpAdd "b" "" "low" None; OpMark (OJson (JInt 2))] (self0, w0')).
Proof.
  destruct (counts_partition_on_running_store "todo_list.json" w_empty
              [OpAdd "a" "" "low" None; OpAdd "b" "" "low" None; OpMark (OJson (JInt 2))])
    as (self0 & w0' & Hinit & total & pending & completed & _ & Hp & Hc & _);
    [reflexivity | constructor |].
  exists self0, w0'. split; [exact Hinit |]. exists pending, completed. by split.
Defined.

(* ------------------------------------------------------------------ *)
(** ** Completing twice *)




(* ------------------------------------------------------------------ *)
(** ** A counter that is no number *)

(** X4.  When [next_id] is not a number (a file can hold any value there),
    [add_task] raises [TypeError] at the increment: the manager, its task
    list and the files are unchanged; only the task object built before
    the increment exists, unreferenced. *)
Theorem add_task_counter_not_a_number
        (self : ToDoListManager) (w : world)
        (title description priority : string) (due_date : option string) :
  py_add_one (next_id self) = Raise TypeError ->
  exists w' x,
    add_task title description priority due_date (self, w) = (Raise TypeError, (self, w')) /\
    task_heap w' = task_heap w ++ [x] /\
    list_heap w' = list_heap w /\
    files w' = files w.
Proof.
  intros Hadd. unfold add_task, Task_init. st_unfold. simpl. rewrite Hadd. simpl.
  eexists _, _. split; [reflexivity |]. simpl. rewrite alter_snoc. done.
Qed.

Lemma add_task_counter_not_a_number_witness :
  py_add_one (JStr "7") = Raise TypeError /\
  fst (add_task "a" "" "medium" None
         (Manager "todo_list.json" 0%nat (JStr "7"), snd s_fresh)) = Raise TypeError.
Proof.
  split; [reflexivity |].
  destruct (add_task_counter_not_a_number
              (Manager "todo_list.json" 0%nat (JStr "7")) (snd s_fresh)
              "a" "" "medium" None) as (w' & x & Heq & _); [reflexivity |].
  by rewrite Heq.
Defined.

(* ------------------------------------------------------------------ *)
(** ** Task.from_dict *)

(** X5.  [Task.from_dict] raises [TypeError] on anything but a mapping and
    [KeyError] on a mapping without a title, leaving the world as it was;
    otherwise it allocates one task whose fields are the entries of the
    mapping, with the defaults for the missing ones ([created_at] defaults
    to the second clock reading of the call). *)
Theorem Task_from_dict_outcome (data : json) (w : world) :
  match data with
  | JDict d =>
      match dict_lookup "title" d with
      | Some title =>
          Task_from_dict data w =
          (Ok (length (task_heap w)),
           World (task_heap w ++
                  [Task.mk (default JNull (dict_lookup "id" d))
                           title
                           (default (JStr "") (dict_lookup "description" d))
                           (default (JStr "medium") (dict_lookup "priority" d))
                           (default JNull (dict_lookup "due_date" d))
                           (default (JStr "pending") (dict_lookup "status" d))
                           (default (JStr (clock w (S (ticks w))))
                                    (dict_lookup "created_at" d))
                           (default JNull (dict_lookup "completed_at" d))])
                 (list_heap w) (files w) (clock w) (S (S (ticks w))))
      | None => Task_from_dict data w = (Raise KeyError, w)
      end
  | _ => Task_from_dict data w = (Raise TypeError, w)
  end.
Proof.
  destruct data as [| | | | |d]; try reflexivity.
  unfold Task_from_dict, Task_init. st_unfold. simpl.
  destruct (dict_lookup "title" d) as [title|]; [| reflexivity]. simpl.
  rewrite !alter_snoc. destruct w. reflexivity.
Qed.

(* ------------------------------------------------------------------ *)
(** ** The constructor on any file *)

Lemma from_dict_cases (data : json) (w : world) :
  (is_task_mapping data = true /\
   exists x, Task_from_dict data w =
             (Ok (length (task_heap w)),
              World (task_heap w ++ [x]) (list_heap w) (files w) (clock w)
                    (S (S (ticks w))))) \/
  (is_task_mapping data = false /\
   Task_from_dict data w =
   (Raise (match data with JDict _ => KeyError | _ => TypeError end), w)).
Proof.
  destruct data as [| | | | |d]; try (right; split; reflexivity).
  unfold is_task_mapping, Task_from_dict, Task_init. st_unfold. simpl.
  destruct (dict_lookup "title" d) as [title|]; [left | right; split; reflexivity].
  split; [done |]. simpl. rewrite !alter_snoc. eexists. destruct w. reflexivity.
Qed.

Lemma mapST_from_dict_any (items : list json) (w : world) :
  exists extra t,
    mapST Task_from_dict items w =
    (match first_bad_entry items with
     | None => Ok (seq (length (task_heap w)) (length items))
     | Some (JDict _) => Raise KeyError
     | Some _ => Raise TypeError
     end,
     World (task_heap w ++ extra) (list_heap w) (files w) (clock w) t).
Proof.
  revert w. induction items as [|v items IH]; intros w.
  - exists [], (ticks w). destruct w. simpl. by rewrite app_nil_r.
  - simpl mapST. unfold bind. unfold first_bad_entry in *. simpl List.find.
    destruct (from_dict_cases v w) as [[Hok [x Heq]] | [Hok Heq]];
      rewrite Heq, Hok; simpl negb; cbv iota.
    + destruct (IH (World (task_heap w ++ [x]) (list_heap w) (files w) (clock w)
                          (S (S (ticks w))))) as (extra & t & Hrec).
      rewrite Hrec. simpl. exists (x :: extra), t. rewrite <- app_assoc. simpl.
      destruct (List.find _ items) as [[| | | | |]|]; try reflexivity.
      unfold ret. rewrite length_app. simpl.
      by replace (length (task_heap w) + 1)%nat with (S (length (task_heap w))) by lia.
    + exists [], (ticks w). destruct w. simpl. rewrite app_nil_r. by destruct v.
Qed.

Lemma init_on_mapping (p : string) (d : list (string * json)) (w : world) :
  files w !! p = Some (Document (JDict d)) ->
  exists extra t,
    ToDoListManager_init p w =
    match py_iter (default (JList []) (dict_lookup "tasks" d)) with
    | Raise e => (Raise e, with_list_heap (list_heap w ++ [[]]) w)
    | Ok items =>
        match first_bad_entry items with
        | None =>
            (Ok (Manager p (S (length (list_heap w)))
                         (default (JInt 1) (dict_lookup "next_id" d))),
             World (task_heap w ++ extra)
                   (list_heap w ++ [[]; seq (length (task_heap w)) (length items)])
                   (files w) (clock w) t)
        | Some (JDict _) =>
            (Ok (Manager p (S (length (list_heap w))) (JInt 1)),
             World (task_heap w ++ extra) (list_heap w ++ [[]; []])
                   (files w) (clock w) t)
        | Some _ =>
            (Raise TypeError,
             World (task_heap w ++ extra) (list_heap w ++ [[]]) (files w) (clock w) t)
        end
    end.
Proof.
  intros Hf. unfold ToDoListManager_init, load_tasks. st_unfold. cbn. rewrite Hf. cbn.
  destruct (py_iter (default (JList []) (dict_lookup "tasks" d))) as [items|e] eqn:Hi.
  - destruct (mapST_from_dict_any items (with_list_heap (list_heap w ++ [[]]) w))
      as (extra & t & Heq).
    rewrite Heq. exists extra, t. cbn.
    destruct (first_bad_entry items) as [[| | | | |]|]; cbn;
      rewrite ?length_app, <- ?app_assoc; cbn;
      rewrite ?Nat.add_1_r; reflexivity.
  - exists [], (ticks w).
    assert (He : e = TypeError).
    { destruct (default (JList []) (dict_lookup "tasks" d)); simpl in *; congruence. }
    subst e. reflexivity.
Qed.

(** X6.  What the constructor does with a file that is absent, that
    [json.load] rejects with [JSONDecodeError], or that parses to a
    document without floats.  No file or text that is no JSON: an empty
    store with counter 1.  A document that is no mapping:
    [AttributeError].  A mapping whose [tasks] entry cannot
    be iterated: [TypeError].  Otherwise the first entry that is not a
    mapping with a title decides: none, and the store holds one task per
    entry with the stored counter (1 when missing); a mapping without
    title, and the store starts empty with counter 1; anything else,
    [TypeError]. *)
Theorem constructor_outcome (p : string) (w : world) :
  let r := fst (ToDoListManager_init p w) in
  let w' := snd (ToDoListManager_init p w) in
  let fresh := exists self, r = Ok self /\ data_file self = p /\
                            next_id self = JInt 1 /\ list_at w' (tasks self) = [] in
  match files w !! p with
  | None => fresh
  | Some Malformed => fresh
  | Some (Document (JDict d)) =>
      match py_iter (default (JList []) (dict_lookup "tasks" d)) with
      | Raise e => e = TypeError /\ r = Raise TypeError
      | Ok items =>
          match first_bad_entry items with
          | None =>
              exists self, r = Ok self /\ data_file self = p /\
                next_id self = default (JInt 1) (dict_lookup "next_id" d) /\
                length (list_at w' (tasks self)) = length items
          | Some (JDict _) => fresh
          | Some _ => r = Raise TypeError
          end
      end
  | Some (Document _) => r = Raise AttributeError
  end.
Proof.
  intros r w' fresh. subst r w' fresh.
  destruct (files w !! p) as [[|v]|] eqn:Hf.
  - destruct (init_malformed p w Hf) as (self & w1 & Heq & Hl & Hn).
    rewrite Heq. exists self. repeat split; try done.
    unfold ToDoListManager_init, load_tasks in Heq. revert Heq. st_unfold. cbn.
    rewrite Hf. cbn. by intros [= <- _].
  - destruct v as [| | | | |d]; try (apply (init_not_a_mapping p _ w Hf); discriminate).
    destruct (init_on_mapping p d w Hf) as (extra & t & Heq). rewrite Heq.
    destruct (py_iter (default (JList []) (dict_lookup "tasks" d))) as [items|e] eqn:Hi.
    + destruct (first_bad_entry items) as [[| | | | |]|]; cbn; try reflexivity.
      * eexists. repeat split. unfold list_at. cbn.
        rewrite lookup_app_r by lia.
        by replace (S (length (list_heap w)) - length (list_heap w))%nat with 1%nat by lia.
      * eexists. repeat split. unfold list_at. cbn.
        rewrite lookup_app_r by lia.
        replace (S (length (list_heap w)) - length (list_heap w))%nat with 1%nat by lia.
        cbn. apply length_seq.
    + assert (He : e = TypeError).
      { destruct (default (JList []) (dict_lookup "tasks" d)); simpl in *; congruence. }
      subst e. by split.
  - rewrite (init_no_file p w Hf). eexists. repeat split.
    unfold list_at. cbn. by rewrite list_lookup_middle.
Qed.

(** X7.  Constructing a manager never writes: the files are as before, and
    the heap only grows (objects that existed are untouched). *)
Theorem constructor_never_writes (p : string) (w : world) :
  let w' := snd (ToDoListManager_init p w) in
  files w' = files w /\
  exists new_tasks new_lists,
    task_heap w' = task_heap w ++ new_tasks /\
    list_heap w' = list_heap w ++ new_lists.
Proof.
  cbv zeta. destruct (files w !! p) as [[|v]|] eqn:Hf.
  - unfold ToDoListManager_init, load_tasks. st_unfold. cbn. rewrite Hf. cbn.
    split; [done |]. exists [], [[]; []]. by rewrite app_nil_r, <- app_assoc.
  - destruct v as [| | | | |d];
      try (unfold ToDoListManager_init, load_tasks; st_unfold; cbn; rewrite Hf; cbn;
           split; [done |]; exists [], [[]]; by rewrite app_nil_r).
    destruct (init_on_mapping p d w Hf) as (extra & t & Heq). rewrite Heq.
    destruct (py_iter (default (JList []) (dict_lookup "tasks" d))) as [items|e].
    + destruct (first_bad_entry items) as [[| | | | |]|]; cbn; (split; [done |]); eauto.
    + cbn. split; [done |]. exists [], [[]]. by rewrite app_nil_r.
  - rewrite (init_no_file p w Hf). cbn. split; [done |].
    exists [], [[]]. by rewrite app_nil_r.
Qed.

(* ------------------------------------------------------------------ *)
(** ** Every change reaches the file *)

Lemma reopen_saved (s : state) :
  exists self2 w2,
    ToDoListManager_init (data_file (fst s)) (snd (saved s)) = (Ok self2, w2) /\
    held self2 w2 = held (fst s) (snd s) /\
    next_id self2 = next_id (fst s).
Proof.
  destruct s as [self w]. eexists _, _. split.
  { apply (init_on_document _ (next_id self) (held self w)). simpl.
    apply lookup_insert_eq. }
  simpl. split; [| done].
  unfold held at 1, list_at, task_at. simpl.
  rewrite lookup_app_r by lia.
  replace (S (length (list_heap w)) - length (list_heap w))%nat with 1%nat by lia.
  simpl. apply deref_fresh_block.
Qed.

(** X8.  After an [add_task] that returned, a [mark_task_completed] that
    returned [True], or a [clear_all_tasks], a manager constructed on the
    same file holds the same tasks and the same counter as the manager in
    memory. *)
Theorem changes_are_written_through
        (self : ToDoListManager) (w : world) (s' : state) :
  (exists title description priority due_date task,
      add_task title description priority due_date (self, w) = (Ok task, s')) \/
  (exists identifier, mark_task_completed identifier (self, w) = (Ok true, s')) \/
  clear_all_tasks (self, w) = (Ok tt, s') ->
  exists self2 w2,
    ToDoListManager_init (data_file (fst s')) (snd s') = (Ok self2, w2) /\
    held self2 w2 = held (fst s') (snd s') /\
    next_id self2 = next_id (fst s').
Proof.
  assert (Hsaved : forall s0 : state, s' = saved s0 ->
            exists self2 w2,
              ToDoListManager_init (data_file (fst s')) (snd s') = (Ok self2, w2) /\
              held self2 w2 = held (fst s') (snd s') /\
              next_id self2 = next_id (fst s')).
  { intros s0 ->. apply (reopen_saved s0). }
  intros [(title & description & priority & due_date & task & Hadd) | [[identifier Hmark] | Hclear]].
  - destruct (py_add_one (next_id self)) as [v|e] eqn:Hv.
    + destruct (next_id self) as [|b|n| | |] eqn:Hn; try discriminate.
      * (* a boolean counter *)
        revert Hadd. unfold add_task, Task_init. st_unfold. simpl. rewrite Hn. simpl.
        rewrite saved_eq. intros [= _ <-]. eapply Hsaved. reflexivity.
      * revert Hadd. unfold add_task, Task_init. st_unfold. simpl. rewrite Hn. simpl.
        rewrite saved_eq. intros [= _ <-]. eapply Hsaved. reflexivity.
    + revert Hadd. unfold add_task, Task_init. st_unfold. simpl. rewrite Hv. simpl.
      discriminate.
  - rewrite mark_task_completed_via_resolve in Hmark.
    destruct (fst (resolve identifier (self, w))) as [[a|]|e]; simpl in Hmark;
      try discriminate.
    injection Hmark as <-. eapply Hsaved. reflexivity.
  - revert Hclear. unfold clear_all_tasks. st_unfold. simpl.
    rewrite saved_eq. intros [= <-]. eapply Hsaved. reflexivity.
Qed.

Lemma changes_are_written_through_witness :
  exists self2 w2,
    ToDoListManager_init "todo_list.json" (snd s_one) = (Ok self2, w2) /\
    next_id self2 = JInt 2.
Proof.
  destruct (changes_are_written_through (fst s_fresh) (snd s_fresh) s_one)
    as (self2 & w2 & Hinit & _ & Hn).
  { left. exists "Buy groceries", "", "medium", None, 0%nat. reflexivity. }
  exists self2, w2. split; [exact Hinit | exact Hn].
Defined.

(* ------------------------------------------------------------------ *)
(** ** Titles up to letter case *)

Lemma lower_upper_ascii (c : ascii) : lower_ascii (upper_ascii c) = lower_ascii c.
Proof.
  destruct c as [[] [] [] [] [] [] [] []]; reflexivity.
Qed.

Lemma lower_lower_ascii (c : ascii) : lower_ascii (lower_ascii c) = lower_ascii c.
Proof.
  destruct c as [[] [] [] [] [] [] [] []]; reflexivity.
Qed.

Lemma lower_upper (s : string) : lower (upper s) = lower s.
Proof. induction s as [|c s IH]; simpl; [done |]. by rewrite lower_upper_ascii, IH. Qed.

Lemma lower_lower (s : string) : lower (lower s) = lower s.
Proof. induction s as [|c s IH]; simpl; [done |]. by rewrite lower_lower_ascii, IH. Qed.

Lemma find_title_lower (w : world) (t u : string) (l : list addr) :
  lower t = lower u -> find_title w t l = find_title w u l.
Proof.
  intros H. induction l as [|a l IH]; simpl; [done |]. by rewrite H, IH.
Qed.

(** X9.  On ASCII text (the query and the titles held):
    [get_task_by_title] gives the same answer for a title, its upper case
    and its lower case form, changes nothing, and a task it returns is
    held and has that title up to letter case. *)
Theorem get_task_by_title_ignores_case (title : string) (s : state) :
  is_ascii title = true ->
  titles_ascii (fst s) (snd s) ->
  get_task_by_title (upper title) s = get_task_by_title title s /\
  get_task_by_title (lower title) s = get_task_by_title title s /\
  snd (get_task_by_title title s) = s /\
  (forall a, fst (get_task_by_title title s) = Ok (Some a) ->
     a ∈ list_at (snd s) (tasks (fst s)) /\
     exists t, Task.title (task_at (snd s) a) = JStr t /\ lower t = lower title).
Proof.
  intros _ _.
  destruct s as [self w]. rewrite !get_task_by_title_eq.
  rewrite (find_title_lower w (upper title) title) by apply lower_upper.
  rewrite (find_title_lower w (lower title) title) by apply lower_lower.
  split; [done |]. split; [done |]. split; [done |].
  cbn [fst snd]. intros a.
  induction (list_at w (tasks self)) as [|b l IH]; simpl; [discriminate |].
  destruct (Task.title (task_at w b)) as [| | |t| |] eqn:Ht; try discriminate.
  destruct (String.eqb_spec (lower t) (lower title)) as [E|E].
  - intros [= <-]. split; [by left |]. by exists t.
  - intros H. destruct (IH H) as [Hin Hex]. split; [by right | done].
Qed.

Lemma get_task_by_title_ignores_case_witness :
  is_ascii "Buy Groceries" = true /\
  titles_ascii (fst s_one) (snd s_one) /\
  get_task_by_title "BUY GROCERIES" s_one = get_task_by_title "Buy Groceries" s_one /\
  get_task_by_title "buy groceries" s_one = get_task_by_title "Buy Groceries" s_one /\
  fst (get_task_by_title "Buy Groceries" s_one) = Ok (Some 0%nat).
Proof.
  assert (Hascii : titles_ascii (fst s_one) (snd s_one)).
  { intros a t Ha Ht. vm_compute in Ha. apply list_elem_of_singleton in Ha. subst a.
    vm_compute in Ht. injection Ht as <-. reflexivity. }
  split; [reflexivity |]. split; [exact Hascii |].
  destruct (get_task_by_title_ignores_case "Buy Groceries" s_one eq_refl Hascii)
    as (Hup & Hlow & _).
  split; [exact Hup |]. split; [exact Hlow |]. reflexivity.
Defined.

(* ------------------------------------------------------------------ *)
(** ** The returned list is a copy *)

Lemma add_task_list_heap (self : ToDoListManager) (w : world)
      (title description priority : string) (due_date : option string) :
  let w' := snd (snd (add_task title description priority due_date (self, w))) in
  list_heap w' = list_heap w \/
  list_heap w' = alter (fun l => l ++ [length (task_heap w)]) (tasks self) (list_heap w).
Proof.
  unfold add_task, Task_init. st_unfold. simpl.
  destruct (py_add_one (next_id self)); simpl; [| by left].
  rewrite saved_eq. simpl. by right.
Qed.

(** X10.  The list returned by [list_tasks] is a different object from the
    manager's list: a later [add_task], [clear_all_tasks] or
    [mark_task_completed] does not change which tasks it holds, and
    [list_tasks] leaves the manager's list as it was. *)
Theorem list_tasks_result_is_a_copy
        (self : ToDoListManager) (w : world) (status_filter : option string) :
  (tasks self < length (list_heap w))%nat ->
  exists result w1,
    list_tasks status_filter (self, w) = (Ok result, (self, w1)) /\
    result <> tasks self /\
    list_at w1 (tasks self) = list_at w (tasks self) /\
    (forall title description priority due_date,
        list_at (snd (snd (add_task title description priority due_date (self, w1)))) result
        = list_at w1 result) /\
    list_at (snd (snd (clear_all_tasks (self, w1)))) result = list_at w1 result /\
    (forall identifier,
        list_at (snd (snd (mark_task_completed identifier (self, w1)))) result
        = list_at w1 result).
Proof.
  intros Hvalid. eexists _, _. split; [apply list_tasks_eq |]. cbn zeta.
  set (sel := if truthy status_filter then _ else _).
  set (w1 := with_list_heap (list_heap w ++ [sel]) w).
  assert (Hne : length (list_heap w) <> tasks self) by lia.
  split; [done |]. split.
  { unfold list_at, w1. simpl. by rewrite lookup_app_l. }
  split; [| split].
  - intros title description priority due_date.
    destruct (add_task_list_heap self w1 title description priority due_date) as [H|H];
      unfold list_at; rewrite H; [done |].
    by rewrite list_lookup_alter_ne.
  - rewrite clear_all_tasks_eq. unfold list_at. simpl.
    by rewrite list_lookup_alter_ne.
  - intros identifier. rewrite mark_task_completed_via_resolve.
    by destruct (fst (resolve identifier (self, w1))) as [[a|]|e].
Qed.

Lemma list_tasks_result_is_a_copy_witness :
  exists result w1,
    list_tasks None s_one = (Ok result, (fst s_one, w1)) /\
    list_at (snd (snd (clear_all_tasks (fst s_one, w1)))) result = list_at w1 result.
Proof.
  destruct (list_tasks_result_is_a_copy (fst s_one) (snd s_one) None)
    as (result & w1 & Heq & _ & _ & _ & Hclear & _).
  { vm_compute. lia. }
  exists result, w1. split; [exact Heq | exact Hclear].
Defined.

(* ------------------------------------------------------------------ *)
(** ** Add, then look up *)

(** X11.  On a store constructed without a backing file and driven by any
    operations, the task returned by [add_task] is found again by
    [get_task_by_id] under the id it was given; it is pending and has the
    title passed in. *)
Theorem add_task_then_get_by_id (p : string) (w0 : world) (ops : list op)
        (title description priority : string) (due_date : option string) :
  files w0 !! p = None ->
  exists self0 w0',
    ToDoListManager_init p w0 = (Ok self0, w0') /\
    let s := run ops (self0, w0') in
    exists task s' n,
      add_task title description priority due_date s = (Ok task, s') /\
      Task.id (task_at (snd s') task) = JInt n /\
      get_task_by_id n s' = (Ok (Some task), s') /\
      Task.title (task_at (snd s') task) = JStr title /\
      Task.status (task_at (snd s') task) = JStr "pending".
Proof.
  intros Hf.
  destruct (store_ok_init (fun _ => True) p w0) as (self0 & w0' & Hinit & Hok).
  { by apply Forall_true. }
  { by apply file_ok_absent. }
  exists self0, w0'. split; [done |].
  pose proof (store_ok_run (fun _ => True) p (fun _ _ _ _ _ _ => I) (fun _ _ => I)
                           ops _ Hok) as Hs.
  pose proof (store_ok_add (fun _ => True) p (fun _ _ _ _ _ _ => I) _
                           title description priority due_date Hs) as [Hm' _].
  destruct Hs as [Hm _].
  destruct (run ops (self0, w0')) as [self w]. cbn [fst snd] in *.
  unfold mem_ok in Hm. simpl in Hm. destruct Hm as (Hp & Hl & Hv & Hids & Hn & _).
  rewrite (add_task_eq _ _ _ _ _ _ _ Hn) in Hm'. cbn [snd] in Hm'.
  eexists _, _, _. split; [by apply add_task_eq |]. cbn [fst snd].
  unfold with_files. simpl. rewrite task_at_new. simpl.
  split; [done |]. split; [| done].
  unfold mem_ok in Hm'. simpl in Hm'. destruct Hm' as (_ & _ & _ & Hids' & _).
  unfold held, numbered in Hids'. rewrite List.map_map, length_map in Hids'.
  rewrite get_task_by_id_eq. f_equal. f_equal.
  match type of Hids' with
  | List.map ?f ?l = _ => rewrite (find_numbered f _ l 1 Hids')
  end.
  change (Z.of_nat 1) with 1.
  destruct (Z.leb_spec 1 (len (held self w) + 1)) as [_|H]; [| unfold len in H; lia].
  destruct (lookup_lt_is_Some_2 _ _ Hl) as [l Hlk].
  unfold held, list_at, len. simpl. rewrite list_lookup_alter_eq, Hlk. simpl.
  rewrite length_map.
  replace (Z.to_nat (Z.of_nat (length l) + 1 - 1)) with (length l) by lia.
  by rewrite list_lookup_middle.
Qed.

Lemma add_task_then_get_by_id_witness :
  exists self0 w0',
    ToDoListManager_init "todo_list.json" w_empty = (Ok self0, w0') /\
    exists task s' n,
      add_task "b" "" "low" None (run [OpAdd "a" "" "low" None; OpClear] (self0, w0'))
      = (Ok task, s') /\
      get_task_by_id n s' = (Ok (Some task), s').
Proof.
  destruct (add_task_then_get_by_id "todo_list.json" w_empty
              [OpAdd "a" "" "low" None; OpClear] "b" "" "low" None)
    as (self0 & w0' & Hinit & task & s' & n & Hadd & _ & Hget & _); [reflexivity |].
  exists self0, w0'. split; [exact Hinit |]. exists task, s', n. by split.
Defined.





(* ------------------------------------------------------------------ *)
(** ** The command line *)

Lemma init_files (p : string) (w : world) :
  files (snd (ToDoListManager_init p w)) = files w.
Proof.
  destruct (files w !! p) as [[|v]|] eqn:Hf.
  - unfold ToDoListManager_init, load_tasks. st_unfold. cbn. by rewrite Hf.
  - destruct v as [| | | | |d];
      try (unfold ToDoListManager_init, load_tasks; st_unfold; cbn; by rewrite Hf).
    destruct (init_on_mapping p d w Hf) as (extra & t & Heq). rewrite Heq.
    destruct (py_iter (default (JList []) (dict_lookup "tasks" d))) as [items|e];
      [| done].
    by destruct (first_bad_entry items) as [[| | | | |]|].
  - by rewrite (init_no_file p w Hf).
Qed.



Lemma init_data_file (p : string) (w : world) (self : ToDoListManager) (w1 : world) :
  ToDoListManager_init p w = (Ok self, w1) -> data_file self = p.
Proof.
  destruct (files w !! p) as [[|v]|] eqn:Hf.
  - unfold ToDoListManager_init, load_tasks. st_unfold. cbn. rewrite Hf. cbn.
    by intros [= <- _].
  - destruct v as [| | | | |d];
      try (unfold ToDoListManager_init, load_tasks; st_unfold; cbn; rewrite Hf; cbn;
           discriminate).
    destruct (init_on_mapping p d w Hf) as (extra & t & Heq). rewrite Heq.
    destruct (py_iter (default (JList []) (dict_lookup "tasks" d))) as [items|e];
      [| discriminate].
    destruct (first_bad_entry items) as [[| | | | |]|]; try discriminate;
      by intros [= <- _].
  - rewrite (init_no_file p w Hf). by intros [= <- _].
Qed.

(** X13.  The clear command on an empty store prints the yellow notice and
    writes nothing; on a store with tasks it prints the green line and
    leaves the empty store with counter 1 in the file. *)
Theorem main_clear_is_gated (out : list printed) (w : world)
        (self : ToDoListManager) (w1 : world) :
  ToDoListManager_init "todo_list.json" w = (Ok self, w1) ->
  (list_at w1 (tasks self) = [] ->
   main CmdClear (out, w) =
   (Returned, (out ++ [Colored "To-do list is already empty." YELLOW], w1)) /\
   files w1 = files w) /\
  (list_at w1 (tasks self) <> [] ->
   exists w2,
     main CmdClear (out, w) =
     (Returned, (out ++ [Colored "✓ Cleared all tasks from the to-do list." GREEN], w2)) /\
     files w2 !! "todo_list.json" = Some (document (JInt 1) [])).
Proof.
  intros Hinit. pose proof (init_data_file _ _ _ _ Hinit) as Hp.
  pose proof (init_files "todo_list.json" w) as Hfiles. rewrite Hinit in Hfiles.
  unfold main. cbn [snd fst]. rewrite Hinit.
  unfold main_body, bind, liftS, is_empty. st_unfold. cbn [fst snd].
  split; intros Hl.
  - rewrite Hl. simpl. done.
  - destruct (list_at w1 (tasks self)) as [|a l] eqn:El; [done |].
    change (len (a :: l) =? 0) with false. cbn beta iota. cbn [fst snd].
    rewrite clear_all_tasks_eq. unfold print_colored. cbn [fst snd].
    eexists. split; [reflexivity |]. cbn. rewrite Hp, lookup_insert_eq.
    unfold snapshot, document, held, list_at. cbn.
    by rewrite (list_at_cleared w1).
Qed.

Lemma main_clear_is_gated_witness :
  exists self w1,
    ToDoListManager_init "todo_list.json" w_empty = (Ok self, w1) /\
    fst (main CmdClear ([], w_empty)) = Returned /\
    files (snd (snd (main CmdClear ([], w_empty)))) = files w_empty.
Proof.
  assert (Hinit : ToDoListManager_init "todo_list.json" w_empty =
                  (Ok (Manager "todo_list.json" 0%nat (JInt 1)), snd s_fresh))
    by reflexivity.
  destruct (main_clear_is_gated [] w_empty _ _ Hinit) as [Hempty _].
  destruct Hempty as [Hmain Hfiles]; [reflexivity |].
  eexists _, _. split; [exact Hinit |]. rewrite Hmain. split; [reflexivity | exact Hfiles].
Defined.












(** X15.  With no file, an add run followed by a list run prints the
    confirmation, then the header, the line [○ [1] title] with one,
    two or three priority glyphs, the description line when the
    description is not empty and the due line when a non-empty due date
    was given. *)
Theorem add_then_list_shows_the_task
        (w : world) (title description : string) (priority : priority_choice)
        (due_date : option string) :
  files w !! "todo_list.json" = None ->
  fst (sessions [CmdAdd title description priority due_date; CmdList None] w) =
  [ (Returned, [Colored ("✓ Added task: " +:+ title) GREEN]);
    (Returned,
     [Colored (newline +:+ "Tasks:") CYAN;
      Colored ("  ○ [1] " +:+ title +:+ " " +:+
               glyphs match priority with PLow => 1 | PMedium => 2 | PHigh => 3 end)
              WHITE]
     ++ (if String.eqb description "" then []
         else [Colored ("    Description: " +:+ description) LIGHTBLACK_EX])
     ++ match due_date with
        | Some d => if String.eqb d "" then []
                    else [Colored ("    Due: " +:+ d) LIGHTBLACK_EX]
        | None => []
        end) ].
Proof.
  intros Hf.
  set (x := Task.mk (JInt 1) (JStr title) (JStr description)
                    (JStr (priority_text priority)) (json_of_opt due_date)
                    (JStr "pending") (JStr (clock w (ticks w))) JNull).
  set (w1 := with_files (<["todo_list.json" := document (JInt 2) [x]]> (files w))
               (World (task_heap w ++ [x]) (list_heap w ++ [[length (task_heap w)]])
                      (files w) (clock w) (S (ticks w)))).
  assert (H1 : main (CmdAdd title description priority due_date) ([], w) =
               (Returned, ([Colored ("✓ Added task: " +:+ title) GREEN], w1))).
  { unfold main. cbn [fst snd]. rewrite (init_no_file _ _ Hf). cbn [fst snd].
    unfold main_body, bind, liftS. cbn [fst snd].
    rewrite (add_task_eq _ _ _ _ _ _ 1) by reflexivity. cbn zeta.
    unfold liftW, read_task, print_colored. cbn [fst snd].
    unfold with_files at 1. cbn [task_heap]. rewrite task_at_new. cbn.
    unfold w1, with_files, snapshot, document, held, list_at. cbn.
    rewrite list_lookup_alter_eq, list_lookup_middle by done. cbn.
    rewrite task_at_new.
    replace (length (list_heap w)) with (length (list_heap w) + 0)%nat at 1 by lia.
    rewrite alter_app_r. reflexivity. }
  assert (Hinit : ToDoListManager_init "todo_list.json" w1 =
                  (Ok (Manager "todo_list.json" (S (length (list_heap w1))) (JInt 2)),
                   World (task_heap w1 ++ [x])
                         (list_heap w1 ++ [[]] ++ [seq (length (task_heap w1)) 1])
                         (files w1) (clock w1) (2 * 1 + ticks w1)%nat)).
  { apply (init_on_document _ (JInt 2) [x]). apply lookup_insert_eq. }
  assert (H2 : exists w2,
             main (CmdList None) ([], w1) =
             (Returned,
              ([Colored (newline +:+ "Tasks:") CYAN;
                Colored ("  ○ [1] " +:+ title +:+ " " +:+
                         glyphs match priority with PLow => 1 | PMedium => 2 | PHigh => 3 end)
                        WHITE]
               ++ (if String.eqb description "" then []
                   else [Colored ("    Description: " +:+ description) LIGHTBLACK_EX])
               ++ match due_date with
                  | Some d => if String.eqb d "" then []
                              else [Colored ("    Due: " +:+ d) LIGHTBLACK_EX]
                  | None => []
                  end, w2))).
  { set (self2 := Manager "todo_list.json" (S (length (list_heap w1))) (JInt 2)) in *.
    set (w2 := World (task_heap w1 ++ [x])
                     (list_heap w1 ++ [[]] ++ [seq (length (task_heap w1)) 1])
                     (files w1) (clock w1) (2 * 1 + ticks w1)%nat) in *.
    assert (Hl2 : list_at w2 (tasks self2) = [length (task_heap w1)]).
    { unfold list_at, w2, self2. cbn [list_heap tasks].
      rewrite lookup_app_r by lia.
      by replace (S (length (list_heap w1)) - length (list_heap w1))%nat with 1%nat by lia. }
    set (w3 := with_list_heap (list_heap w2 ++ [[length (task_heap w1)]]) w2).
    assert (Hl3 : list_at w3 (length (list_heap w2)) = [length (task_heap w1)])
      by apply list_at_fresh.
    assert (Hx : task_at w3 (length (task_heap w1)) = x).
    { unfold task_at, w3, w2. cbn [task_heap with_list_heap].
      by rewrite list_lookup_middle. }
    exists w3.
    unfold main. cbn [fst snd]. rewrite Hinit. cbn [fst snd].
    unfold main_body, bind, liftS. cbn [fst snd].
    change (status_text <$> None) with (@None string).
    rewrite list_tasks_eq. cbn zeta. cbn [truthy]. rewrite Hl2. fold w3.
    unfold print_tasks, bind, liftS, liftW, read_list. cbn [fst snd]. rewrite Hl3.
    unfold print_colored at 1. cbn [fst snd mapST].
    unfold bind, print_task, bind, liftS, liftW, read_task, Task_str, bind, read_task, ret,
      of_result. cbn [fst snd]. rewrite Hx.
    unfold str_of, x, print_colored.
    cbn [Task.status Task.priority Task.id Task.title Task.description Task.due_date
         py_eq_str String.eqb Ascii.eqb Bool.eqb].
    destruct priority, description as [|c d], due_date as [[|c' d']|]; reflexivity. }
  destruct H2 as [w2 H2].
  simpl. rewrite H1, H2. reflexivity.
Qed.

Lemma add_then_list_shows_the_task_witness :
  fst (sessions [CmdAdd "Buy groceries" "Get milk" PHigh None; CmdList None] w_empty) =
  [ (Returned, [Colored "✓ Added task: Buy groceries" GREEN]);
    (Returned, [Colored (newline +:+ "Tasks:") CYAN;
                Colored "  ○ [1] Buy groceries ●●●" WHITE;
                Colored "    Description: Get milk" LIGHTBLACK_EX]) ].
Proof.
  apply (add_then_list_shows_the_task w_empty "Buy groceries" "Get milk" PHigh None).
  reflexivity.
Defined.

(* ------------------------------------------------------------------ *)
(** ** What the operations leave alone *)



